(** * trading-bot-crypto: the backtest execution engine

    A shallow embedding of [services/bybit_client.py]
    ([SimulatedBybitClient]) and of [backtester.py] ([run_backtest]),
    with the properties of the backtest engine stated over it.

    Numbers.  The Python code computes on [float].  The general
    statements are over exact rationals ([Q]): rounding, NaN and
    infinities are outside that model; every comparison and every
    arithmetic expression is otherwise the one of the source, and
    equality of computed amounts is [Qeq] ([==]).  The module [Binary64]
    is the same code on IEEE 754 doubles, operation by operation; it is
    evaluated on concrete inputs to show where rounding makes the code
    differ from the exact reading.

    Strings.  Position sides (["Long"], ["Short"], ["None"]), order sides
    (["Buy"], ["Sell"]) and signals (["BUY"], ["SELL"], ["HOLD"], ...)
    are Python strings in the source and [string] here, compared with
    [String.eqb] exactly where the source uses [==] and [!=]. *)

From Stdlib Require Import QArith Qminmax Lqa Lia ZArith List String Bool.
From Stdlib Require Floats.
Import ListNotations.

Local Open Scope string_scope.
Local Open Scope Q_scope.

(** ** Numeric helpers *)

(** [x < y] on floats, as a boolean. *)
Definition Qltb (x y : Q) : bool := negb (Qle_bool y x).

(** The threshold [1e-9] below which a position counts as closed. *)
Definition epsilon : Q := 1 # 1000000000.

(** Python's builtin [min(a, b)]: the first argument unless the second
    is strictly smaller. *)
Definition py_min (a b : Q) : Q := if Qltb b a then b else a.

(** ** services/bybit_client.py: [SimulatedBybitClient] *)

(** The dict [self.current_position]. *)
Record Position : Type := mkPosition {
  symbol : option string;
  size : Q;
  side : string;
  entry_price : Q
}.

Record SimulatedBybitClient : Type := mkClient {
  current_balance : Q;
  initial_capital : Q;
  commission_rate : Q;
  current_position : Position
}.

(** [SimulatedBybitClient.__init__]. *)
Definition init (initial_capital commission_rate : Q) : SimulatedBybitClient :=
  {| current_balance := initial_capital;
     initial_capital := initial_capital;
     commission_rate := commission_rate;
     current_position :=
       {| symbol := None; size := 0; side := "None"; entry_price := 0 |} |}.

(** [get_current_position]: the triple (size, side, entry price). *)
Definition get_current_position (self : SimulatedBybitClient) : Q * string * Q :=
  let pos := current_position self in
  (size pos, side pos, entry_price pos).

Definition get_wallet_balance (self : SimulatedBybitClient) : Q :=
  current_balance self.

(** The dict returned by [execute_order]. *)
Record OrderResult : Type := mkResult {
  success : bool;
  order_id : string;
  pnl : Q;
  balance_after_trade : Q
}.

(** The three flags [is_closing], [is_opening], [is_extending] of
    [execute_order] are set by one [if]/[elif] chain, whose [else]
    returns at once; [classify] is that chain. *)
Inductive OrderKind : Type := Closing | Opening | Extending | Rejected.

Definition classify (current_size : Q) (current_side order_side : string)
  : OrderKind :=
  if Qltb epsilon current_size
     && ((String.eqb current_side "Long" && String.eqb order_side "Sell")
         || (String.eqb current_side "Short" && String.eqb order_side "Buy"))
  then Closing
  else if Qltb current_size epsilon then Opening
  else if Qltb epsilon current_size && String.eqb current_side order_side
  then Extending
  else Rejected.

(** [execute_order].  [uuid] is the value drawn by [uuid.uuid4()] for
    this call; [timestamp] is only printed by the source. *)
Definition execute_order (self : SimulatedBybitClient)
    (uuid : string) (sym order_side : string) (quantity price : Q)
    (timestamp : Z) : OrderResult * SimulatedBybitClient :=
  let current_size := size (current_position self) in
  let current_side := side (current_position self) in
  let current_entry_price := entry_price (current_position self) in
  match classify current_size current_side order_side with
  | Rejected =>
      ({| success := false; order_id := uuid; pnl := 0;
          balance_after_trade := current_balance self |}, self)
  | Closing =>
      let close_amount := py_min quantity current_size in
      let pnl_on_this_trade :=
        if String.eqb current_side "Long"
        then (price - current_entry_price) * close_amount
        else (current_entry_price - price) * close_amount in
      let balance := current_balance self + pnl_on_this_trade in
      let remaining := current_size - close_amount in
      let pos :=
        if Qle_bool remaining epsilon
        then {| symbol := symbol (current_position self);
                size := 0; side := "None"; entry_price := 0 |}
        else {| symbol := symbol (current_position self);
                size := remaining; side := current_side;
                entry_price := current_entry_price |} in
      ({| success := true; order_id := uuid; pnl := pnl_on_this_trade;
          balance_after_trade := balance |},
       {| current_balance := balance;
          initial_capital := initial_capital self;
          commission_rate := commission_rate self;
          current_position := pos |})
  | Opening =>
      ({| success := true; order_id := uuid; pnl := 0;
          balance_after_trade := current_balance self |},
       {| current_balance := current_balance self;
          initial_capital := initial_capital self;
          commission_rate := commission_rate self;
          current_position :=
            {| symbol := Some sym;
               size := quantity;
               side := if String.eqb order_side "Buy" then "Long" else "Short";
               entry_price := price |} |})
  | Extending =>
      let old_total_value := current_size * current_entry_price in
      let new_trade_value := quantity * price in
      let new_total_size := current_size + quantity in
      let new_avg_entry_price :=
        if Qltb 0 new_total_size
        then (old_total_value + new_trade_value) / new_total_size
        else 0 in
      ({| success := true; order_id := uuid; pnl := 0;
          balance_after_trade := current_balance self |},
       {| current_balance := current_balance self;
          initial_capital := initial_capital self;
          commission_rate := commission_rate self;
          current_position :=
            {| symbol := symbol (current_position self);
               size := new_total_size;
               side := current_side;
               entry_price := new_avg_entry_price |} |})
  end.

(** ** config.py *)

Record Config : Type := mkConfig {
  SYMBOL : string;
  TRADE_QUANTITY : Q;
  BACKTEST_INITIAL_CAPITAL : Q;
  BACKTEST_COMMISSION_RATE : Q
}.

(** The values of the module as it is in the repository. *)
Definition config : Config :=
  {| SYMBOL := "BTCUSDT";
     TRADE_QUANTITY := 1 # 10;
     BACKTEST_INITIAL_CAPITAL := 10000;
     BACKTEST_COMMISSION_RATE := 75 # 100000 |}.

(** ** backtester.py *)

(** A row of [df_historical]: only the columns the engine reads. *)
Record Candle : Type := mkCandle {
  Timestamp : Z;
  close : Q
}.

Definition DataFrame : Type := list Candle.

(** [df.iloc[i]] for [i >= 0]; [None] is Python's [IndexError]. *)
Definition iloc (df : DataFrame) (i : nat) : option Candle := nth_error df i.

(** [df.iloc[-1]]. *)
Definition iloc_last (df : DataFrame) : option Candle :=
  nth_error df (List.length df - 1).

(** [df.iloc[0:stop]]. *)
Definition iloc_slice (df : DataFrame) (stop : nat) : DataFrame := firstn stop df.

(** The arguments of one [log_trade] call: one row of the trade log. *)
Record TradeRecord : Type := mkTrade {
  tr_symbol : string;
  tr_action : string;
  tr_side : string;
  tr_quantity : Q;
  tr_price : Q;
  tr_pnl : Q;
  tr_balance_after_trade : Q;
  tr_order_id : string;
  tr_status : string
}.

(** One call of [execute_order] as the engine issued it, with what it
    returned and the position it left.  This is instrumentation: the
    source keeps no such list. *)
Record OrderCall : Type := mkCall {
  oc_side : string;
  oc_quantity : Q;
  oc_price : Q;
  oc_timestamp : Z;
  oc_result : OrderResult;
  oc_position_after : Position
}.

(** Everything [run_backtest] reads and writes.  [strategy_calls] and
    [order_calls] are instrumentation: the arguments of every strategy
    invocation and every [execute_order] call, in order. *)
Record World : Type := mkWorld {
  simulated_bybit_client : SimulatedBybitClient;
  uuid_drawn : nat;
  trade_log : list TradeRecord;
  strategy_calls : list DataFrame;
  order_calls : list OrderCall
}.

(** State and exception monad of the engine. *)
Definition M (A : Type) : Type := World -> option (A * World).

Definition ret {A : Type} (a : A) : M A := fun w => Some (a, w).

Definition bind {A B : Type} (m : M A) (k : A -> M B) : M B :=
  fun w => match m w with
           | Some (a, w') => k a w'
           | None => None
           end.

Definition raise {A : Type} : M A := fun _ => None.

Notation "x <- m ;; k" := (bind m (fun x => k))
  (at level 61, m at next level, right associativity).
Notation "m ;;; k" := (bind m (fun _ => k))
  (at level 61, right associativity).

Definition lift_option {A : Type} (o : option A) : M A :=
  match o with
  | Some a => ret a
  | None => raise
  end.

(** [for i in l: body(i)]. *)
Fixpoint for_each (l : list nat) (body : nat -> M unit) : M unit :=
  match l with
  | [] => ret tt
  | i :: l' => body i ;;; for_each l' body
  end.

(** [log_trade(...)]: appends one row. *)
Definition log_trade (sym action sd : string) (quantity price pnl_ balance : Q)
    (oid status : string) : M unit :=
  fun w =>
    Some (tt,
      {| simulated_bybit_client := simulated_bybit_client w;
         uuid_drawn := uuid_drawn w;
         trade_log := trade_log w ++
           [{| tr_symbol := sym; tr_action := action; tr_side := sd;
               tr_quantity := quantity; tr_price := price; tr_pnl := pnl_;
               tr_balance_after_trade := balance; tr_order_id := oid;
               tr_status := status |}];
         strategy_calls := strategy_calls w;
         order_calls := order_calls w |}).

(** [simulated_bybit_client.get_current_position(symbol)]. *)
Definition client_get_current_position : M (Q * string * Q) :=
  fun w => Some (get_current_position (simulated_bybit_client w), w).

Definition client_current_balance : M Q :=
  fun w => Some (current_balance (simulated_bybit_client w), w).

Section Backtester.

Variable cfg : Config.
(** The strategy plugged in ([strategies.rsi_strategy.generate_signal]
    in the repository): any function of the candle history. *)
Variable generate_signal : DataFrame -> string.
(** The successive values of [uuid.uuid4()]. *)
Variable uuid4 : nat -> string.
(** The symbol extracted from the data file's name. *)
Variable current_backtest_symbol : string.
Variable df_historical : DataFrame.

(** [generate_signal(current_data_slice.copy())]. *)
Definition call_generate_signal (current_data_slice : DataFrame) : M string :=
  fun w =>
    Some (generate_signal current_data_slice,
      {| simulated_bybit_client := simulated_bybit_client w;
         uuid_drawn := uuid_drawn w;
         trade_log := trade_log w;
         strategy_calls := strategy_calls w ++ [current_data_slice];
         order_calls := order_calls w |}).

(** [simulated_bybit_client.execute_order(symbol, side, qty, price, ts)]. *)
Definition client_execute_order (order_side : string) (quantity price : Q)
    (timestamp : Z) : M OrderResult :=
  fun w =>
    let r := execute_order (simulated_bybit_client w) (uuid4 (uuid_drawn w))
               current_backtest_symbol order_side quantity price timestamp in
    Some (fst r,
      {| simulated_bybit_client := snd r;
         uuid_drawn := S (uuid_drawn w);
         trade_log := trade_log w;
         strategy_calls := strategy_calls w;
         order_calls := order_calls w ++
           [{| oc_side := order_side; oc_quantity := quantity;
               oc_price := price; oc_timestamp := timestamp;
               oc_result := fst r;
               oc_position_after := current_position (snd r) |}] |}).

(** The body of the main loop, for candle index [i]. *)
Definition loop_body (i : nat) : M unit :=
  let current_data_slice := iloc_slice df_historical (i + 1) in
  row <- lift_option (iloc df_historical i) ;;
  let current_candle_close := close row in
  let current_candle_timestamp := Timestamp row in
  signal <- call_generate_signal current_data_slice ;;
  pos <- client_get_current_position ;;
  let current_position_size := fst (fst pos) in
  let current_position_side := snd (fst pos) in
  if String.eqb signal "BUY" then
    if negb (String.eqb current_position_side "Long") then
      (if String.eqb current_position_side "Short" then
         close_res <- client_execute_order "Buy" current_position_size
                        current_candle_close current_candle_timestamp ;;
         if success close_res then
           log_trade current_backtest_symbol "CLOSE_POSITION" "Buy"
             current_position_size current_candle_close (pnl close_res)
             (balance_after_trade close_res) (order_id close_res)
             "CLOSED_SHORT"
         else ret tt
       else ret tt) ;;;
      open_res <- client_execute_order "Buy" (TRADE_QUANTITY cfg)
                    current_candle_close current_candle_timestamp ;;
      if success open_res then
        log_trade current_backtest_symbol "OPEN_POSITION" "Buy"
          (TRADE_QUANTITY cfg) current_candle_close 0
          (balance_after_trade open_res) (order_id open_res)
          "EXECUTED_LONG"
      else ret tt
    else ret tt
  else if String.eqb signal "SELL" then
    if negb (String.eqb current_position_side "Short") then
      (if String.eqb current_position_side "Long" then
         close_res <- client_execute_order "Sell" current_position_size
                        current_candle_close current_candle_timestamp ;;
         if success close_res then
           log_trade current_backtest_symbol "CLOSE_POSITION" "Sell"
             current_position_size current_candle_close (pnl close_res)
             (balance_after_trade close_res) (order_id close_res)
             "CLOSED_LONG"
         else ret tt
       else ret tt) ;;;
      open_res <- client_execute_order "Sell" (TRADE_QUANTITY cfg)
                    current_candle_close current_candle_timestamp ;;
      if success open_res then
        log_trade current_backtest_symbol "OPEN_POSITION" "Sell"
          (TRADE_QUANTITY cfg) current_candle_close 0
          (balance_after_trade open_res) (order_id open_res)
          "EXECUTED_SHORT"
      else ret tt
    else ret tt
  else ret tt.

(** [for i in range(len(df_historical)): ...]. *)
Definition replay : M unit :=
  for_each (seq 0 (List.length df_historical)) loop_body.

(** The block after the loop: close whatever position is still open. *)
Definition terminal_liquidation : M unit :=
  pos <- client_get_current_position ;;
  let final_position_size := fst (fst pos) in
  let final_position_side := snd (fst pos) in
  if negb (String.eqb final_position_side "None") then
    row <- lift_option (iloc_last df_historical) ;;
    let final_candle_close := close row in
    let final_candle_timestamp := Timestamp row in
    if String.eqb final_position_side "Long" then
      sim_res <- client_execute_order "Sell" final_position_size
                   final_candle_close final_candle_timestamp ;;
      log_trade current_backtest_symbol "CLOSE_POSITION" "Sell"
        final_position_size final_candle_close (pnl sim_res)
        (balance_after_trade sim_res) "SIM_FINAL_CLOSE_LONG" "CLOSED_AT_END"
    else if String.eqb final_position_side "Short" then
      sim_res <- client_execute_order "Buy" final_position_size
                   final_candle_close final_candle_timestamp ;;
      log_trade current_backtest_symbol "CLOSE_POSITION" "Buy"
        final_position_size final_candle_close (pnl sim_res)
        (balance_after_trade sim_res) "SIM_FINAL_CLOSE_SHORT" "CLOSED_AT_END"
    else ret tt
  else ret tt.

(** The state right after the client is constructed. *)
Definition initial_world : World :=
  {| simulated_bybit_client :=
       init (BACKTEST_INITIAL_CAPITAL cfg) (BACKTEST_COMMISSION_RATE cfg);
     uuid_drawn := O;
     trade_log := [];
     strategy_calls := [];
     order_calls := [] |}.

(** [run_backtest], from the construction of the client on. *)
Definition backtest : M unit :=
  balance <- client_current_balance ;;
  log_trade current_backtest_symbol "START_BACKTEST" "N/A" 0 0 0 balance
    "N/A" "INITIALIZED" ;;;
  replay ;;;
  terminal_liquidation.

(** The final state of a run; [None] if the run raises. *)
Definition run_backtest : option World :=
  match backtest initial_world with
  | Some (_, w) => Some w
  | None => None
  end.

End Backtester.

(** ** Vocabulary of the statements *)

(** The sum of the PnL column of a trade log. *)
Definition sum_pnl (log : list TradeRecord) : Q :=
  fold_right (fun t acc => tr_pnl t + acc) 0 log.

(** The sum of the PnL values [execute_order] returned. *)
Definition sum_call_pnl (calls : list OrderCall) : Q :=
  fold_right (fun c acc => pnl (oc_result c) + acc) 0 calls.

(** The same client, constructed with another commission rate. *)
Definition with_commission_rate (r : Q) (self : SimulatedBybitClient)
  : SimulatedBybitClient :=
  {| current_balance := current_balance self;
     initial_capital := initial_capital self;
     commission_rate := r;
     current_position := current_position self |}.

Definition world_with_commission_rate (r : Q) (w : World) : World :=
  {| simulated_bybit_client := with_commission_rate r (simulated_bybit_client w);
     uuid_drawn := uuid_drawn w;
     trade_log := trade_log w;
     strategy_calls := strategy_calls w;
     order_calls := order_calls w |}.

(** The row written before the loop starts. *)
Definition start_record (cfg : Config) (sym : string) : TradeRecord :=
  {| tr_symbol := sym; tr_action := "START_BACKTEST"; tr_side := "N/A";
     tr_quantity := 0; tr_price := 0; tr_pnl := 0;
     tr_balance_after_trade := BACKTEST_INITIAL_CAPITAL cfg;
     tr_order_id := "N/A"; tr_status := "INITIALIZED" |}.

(** The state when the loop starts. *)
Definition started_world (cfg : Config) (sym : string) : World :=
  {| simulated_bybit_client :=
       init (BACKTEST_INITIAL_CAPITAL cfg) (BACKTEST_COMMISSION_RATE cfg);
     uuid_drawn := O;
     trade_log := [start_record cfg sym];
     strategy_calls := [];
     order_calls := [] |}.

(** Every PnL [execute_order] realized is in the log, and the balance is
    the initial capital plus those. *)
Definition accounted (cfg : Config) (w : World) : Prop :=
  sum_pnl (trade_log w) == sum_call_pnl (order_calls w) /\
  sum_call_pnl (order_calls w) ==
    current_balance (simulated_bybit_client w) - BACKTEST_INITIAL_CAPITAL cfg.

(** The positions the engine produces when every opening fill has the
    configured quantity: flat, or Long or Short of that quantity. *)
Definition engine_position (cfg : Config) (pos : Position) : Prop :=
  (side pos = "None" /\ size pos = 0) \/
  ((side pos = "Long" \/ side pos = "Short") /\ size pos = TRADE_QUANTITY cfg).

Definition all_calls_succeeded (w : World) : Prop :=
  Forall (fun c => success (oc_result c) = true) (order_calls w).

(** What the loop keeps true when the trade quantity is above
    [epsilon]. *)
Definition protocol_state (cfg : Config) (w : World) : Prop :=
  engine_position cfg (current_position (simulated_bybit_client w)) /\
  all_calls_succeeded w.

(** What the loop keeps true when the trade quantity is below
    [epsilon]: the position never reaches [epsilon]. *)
Definition dust_state (w : World) : Prop :=
  size (current_position (simulated_bybit_client w)) < epsilon /\
  all_calls_succeeded w.

(** The result of an engine action, with the client's commission rate
    replaced in the final state. *)
Definition commission_lift {A : Type} (r : Q) (o : option (A * World))
  : option (A * World) :=
  match o with
  | Some (a, w) => Some (a, world_with_commission_rate r w)
  | None => None
  end.

(** ** Test data *)

(** The strategy of the end-to-end scenario: WAIT, WAIT, BUY, SELL. *)
Definition stub_strategy (df : DataFrame) : string :=
  match List.length df with
  | 3%nat => "BUY"
  | 4%nat => "SELL"
  | _ => "WAIT"
  end.

Definition four_bars : DataFrame :=
  [mkCandle 1 100; mkCandle 2 105; mkCandle 3 95; mkCandle 4 120].

Definition scenario_config : Config :=
  {| SYMBOL := "BTCUSDT"; TRADE_QUANTITY := 1;
     BACKTEST_INITIAL_CAPITAL := 1000; BACKTEST_COMMISSION_RATE := 0 |}.

(** A configuration whose trade quantity is exactly [1e-9]. *)
Definition epsilon_config : Config :=
  {| SYMBOL := "BTCUSDT"; TRADE_QUANTITY := epsilon;
     BACKTEST_INITIAL_CAPITAL := 1000; BACKTEST_COMMISSION_RATE := 0 |}.

(** A configuration whose trade quantity is [5e-10], below [1e-9]. *)
Definition dust_config : Config :=
  {| SYMBOL := "BTCUSDT"; TRADE_QUANTITY := 1 # 2000000000;
     BACKTEST_INITIAL_CAPITAL := 1000; BACKTEST_COMMISSION_RATE := 0 |}.

Definition uuid_stub (n : nat) : string := "uuid".

(** A client that is Short 1 entered at 100. *)
Definition short_world : World :=
  {| simulated_bybit_client :=
       mkClient 1000 1000 0 (mkPosition (Some "BTCUSDT") 1 "Short" 100);
     uuid_drawn := 1;
     trade_log := [];
     strategy_calls := [];
     order_calls := [] |}.

(** ** Sequences of orders on the simulated client *)

(** The arguments of one [execute_order] call. *)
Record Order : Type := mkOrder {
  o_uuid : string;
  o_symbol : string;
  o_side : string;
  o_quantity : Q;
  o_price : Q;
  o_timestamp : Z
}.

(** [client.execute_order(...)] on the arguments of [o]. *)
Definition submit (self : SimulatedBybitClient) (o : Order)
  : OrderResult * SimulatedBybitClient :=
  execute_order self (o_uuid o) (o_symbol o) (o_side o) (o_quantity o)
    (o_price o) (o_timestamp o).

(** The calls of [orders] one after the other on the same client: the
    results in order, and the client they leave. *)
Fixpoint submit_all (self : SimulatedBybitClient) (orders : list Order)
  : list OrderResult * SimulatedBybitClient :=
  match orders with
  | [] => ([], self)
  | o :: rest =>
      let r := submit self o in
      let rs := submit_all (snd r) rest in
      (fst r :: fst rs, snd rs)
  end.

(** The position invariant of the data model: flat with size 0 and no
    entry price, or Long or Short with a size above [epsilon]. *)
Definition well_formed_position (pos : Position) : Prop :=
  (side pos = "None" /\ size pos = 0 /\ entry_price pos = 0) \/
  ((side pos = "Long" \/ side pos = "Short") /\ epsilon < size pos).

(** An order with a documented side and a quantity above [epsilon]. *)
Definition documented_order (o : Order) : Prop :=
  (o_side o = "Buy" \/ o_side o = "Sell") /\ epsilon < o_quantity o.

(** One state extends another: the log and the call trace only grow. *)
Definition extends (w w' : World) : Prop :=
  (exists calls, order_calls w' = (order_calls w ++ calls)%list) /\
  (exists rows, trade_log w' = (trade_log w ++ rows)%list).

(** What the loop keeps true of the call trace when the trade quantity
    is above [epsilon]: after every call the position is flat or of the
    configured quantity. *)
Definition bounded_exposure (cfg : Config) (calls : list OrderCall) : Prop :=
  Forall (fun c => size (oc_position_after c) = 0 \/
                   size (oc_position_after c) = TRADE_QUANTITY cfg) calls.

(** ** pandas operations the strategies use *)

(** The sum of a column. *)
Definition Qsum (xs : list Q) : Q := fold_right Qplus 0 xs.

(** [series.rolling(window=window).mean()]: at index [k] the mean of the
    [window] values ending at [k], and NaN ([None]) while fewer than
    [window] values are there. *)
Definition rolling_mean (window : nat) (xs : list Q) : list (option Q) :=
  map (fun k =>
         if (k + 1 <? window)%nat then None
         else Some (Qsum (firstn window (skipn (k + 1 - window) xs))
                    / inject_Z (Z.of_nat window)))
      (seq 0 (List.length xs)).

(** [series.ewm(span=span, adjust=False).mean()]: the first value, then
    [(1 - alpha) * previous + alpha * value] with [alpha = 2 / (span + 1)]. *)
Fixpoint ewm_from (alpha previous : Q) (xs : list Q) : list Q :=
  match xs with
  | [] => []
  | x :: rest =>
      let y := (1 - alpha) * previous + alpha * x in
      y :: ewm_from alpha y rest
  end.

Definition ewm_mean (span : nat) (xs : list Q) : list Q :=
  match xs with
  | [] => []
  | x :: rest => x :: ewm_from (2 / (inject_Z (Z.of_nat span) + 1)) x rest
  end.

(** [rows.iloc[-1]] and [rows.iloc[-2]] of a list of rows. *)
Definition row_last {A : Type} (rows : list A) : option A :=
  nth_error rows (List.length rows - 1).

Definition row_previous {A : Type} (rows : list A) : option A :=
  if (List.length rows <? 2)%nat then None
  else nth_error rows (List.length rows - 2).

(** ** strategies/simple_ma_strategy.py *)

Module simple_ma_strategy.

Definition SMA_LONG_PERIOD : nat := 7.
Definition SMA_SHORT_PERIOD : nat := 3.

(** [df_klines.dropna(inplace=True)] once the two SMA columns are
    there: the rows where neither is NaN.  The [close] column holds
    numbers, so [pd.to_numeric] and the first [dropna] change nothing. *)
Fixpoint dropna (rows : list (Q * option Q * option Q)) : list (Q * Q * Q) :=
  match rows with
  | [] => []
  | (c, Some s, Some l) :: rest => (c, s, l) :: dropna rest
  | _ :: rest => dropna rest
  end.

Definition generate_signal (df_klines : DataFrame) : string :=
  if (List.length df_klines =? 0)%nat
     || (List.length df_klines <? SMA_LONG_PERIOD)%nat
  then "WAIT"
  else
    let closes := map close df_klines in
    if (List.length closes <? SMA_LONG_PERIOD)%nat then "WAIT"
    else
      let SMA_Short := rolling_mean SMA_SHORT_PERIOD closes in
      let SMA_Long := rolling_mean SMA_LONG_PERIOD closes in
      let rows := dropna (combine (combine closes SMA_Short) SMA_Long) in
      if (List.length rows =? 0)%nat || (List.length rows <? 2)%nat then "WAIT"
      else
        match row_last rows, row_previous rows with
        | Some (_, last_short, last_long), Some (_, prev_short, prev_long) =>
            if Qltb last_long last_short && Qle_bool prev_short prev_long
            then "BUY"
            else if Qltb last_short last_long && Qle_bool prev_long prev_short
            then "SELL"
            else "HOLD"
        | _, _ => "WAIT"
        end.

End simple_ma_strategy.

(** ** strategies/single_ema_strategy.py *)

Module single_ema_strategy.

Definition EMA_PERIOD : nat := 20.

(** No column holds a NaN here ([ewm] with [adjust=False] gives a value
    from the first row on), so the two [dropna] change nothing. *)
Definition generate_signal (df_klines : DataFrame) : string :=
  if (List.length df_klines =? 0)%nat
     || (List.length df_klines <? EMA_PERIOD)%nat
  then "WAIT"
  else
    let closes := map close df_klines in
    if (List.length closes <? EMA_PERIOD)%nat then "WAIT"
    else
      let EMA := ewm_mean EMA_PERIOD closes in
      let rows := combine closes EMA in
      if (List.length rows =? 0)%nat || (List.length rows <? 2)%nat then "WAIT"
      else
        match row_last rows, row_previous rows with
        | Some (last_close, last_ema), Some (prev_close, prev_ema) =>
            if Qltb last_ema last_close && Qle_bool prev_close prev_ema
            then "BUY"
            else if Qltb last_close last_ema && Qle_bool prev_ema prev_close
            then "SELL"
            else "HOLD"
        | _, _ => "WAIT"
        end.

End single_ema_strategy.






(** ** services/trade_logger.py *)

Module trade_logger.

Import Ascii.

(** [s.rstrip(c)] for a one-character [c]. *)
Fixpoint rstrip (c : ascii) (s : string) : string :=
  match s with
  | EmptyString => EmptyString
  | String a rest =>
      match rstrip c rest with
      | EmptyString => if Ascii.eqb a c then EmptyString else String a EmptyString
      | kept => String a kept
      end
  end.

(** [text.rstrip('0').rstrip('.')], applied to every formatted number. *)
Definition strip_number (text : string) : string :=
  rstrip "."%char (rstrip "0"%char text).

(** [s.endswith(c)] for a one-character [c]. *)
Fixpoint endswith (c : ascii) (s : string) : bool :=
  match s with
  | EmptyString => false
  | String a rest =>
      match rest with
      | EmptyString => Ascii.eqb a c
      | String _ _ => endswith c rest
      end
  end.

(** [os.path.join(a, b)] of [posixpath]: [b] alone when it is absolute,
    and no separator added after an empty [a] or one that ends with it. *)
Definition os_path_join (a b : string) : string :=
  match b with
  | String "/"%char _ => b
  | _ =>
      if String.eqb a "" || endswith "/"%char a then a ++ b
      else a ++ "/" ++ b
  end.

Definition header : list string :=
  ["Timestamp"; "Symbol"; "Action"; "Side"; "Quantity"; "Price"; "PNL";
   "BalanceAfterTrade"; "OrderID"; "Status"].

(** The files of the log folder, each a list of CSV rows, and the module
    global [session_log_filename]. *)
Record Logger : Type := mkLogger {
  session_log_filename : option string;
  files : string -> option (list (list string))
}.

(** [open(name, 'w')] followed by the writes of [rows]. *)
Definition write_file (fs : string -> option (list (list string)))
    (name : string) (rows : list (list string))
  : string -> option (list (list string)) :=
  fun other => if String.eqb other name then Some rows else fs other.

(** [open(name, 'a')] followed by the write of [row]. *)
Definition append_file (fs : string -> option (list (list string)))
    (name : string) (row : list string)
  : string -> option (list (list string)) :=
  fun other =>
    if String.eqb other name
    then Some (match fs name with
               | Some rows => app rows [row]
               | None => [row]
               end)
    else fs other.

(** The arguments of one [log_trade] call, with the two readings of the
    clock it makes: the stamp for the file name and the stamp of the row. *)
Record Call : Type := mkCall {
  timestamp_file_name : string;
  timestamp_log_entry : string;
  c_symbol : string;
  c_action : string;
  c_side : string;
  c_quantity : Q;
  c_price : Q;
  c_pnl : Q;
  c_balance_after_trade : Q;
  c_order_id : string;
  c_status : string;
  is_backtest : bool
}.

Section Formatting.

(** Python's [f"{x:.8f}"] and [f"{x:.2f}"]. *)
Variable format_8f : Q -> string.
Variable format_2f : Q -> string.
(** [config.LOG_FOLDER]. *)
Variable LOG_FOLDER : string.

(** The name of the session's file, fixed by the first call. *)
Definition new_session_log_filename (c : Call) : string :=
  os_path_join LOG_FOLDER
    ((if is_backtest c then "backtest_log_" else "live_trade_log_") ++
     c_symbol c ++ "_" ++ timestamp_file_name c ++ ".csv").

(** The row a call writes. *)
Definition row_of (c : Call) : list string :=
  [ timestamp_log_entry c; c_symbol c; c_action c; c_side c;
    strip_number (format_8f (c_quantity c));
    strip_number (format_2f (c_price c));
    strip_number (format_2f (c_pnl c));
    strip_number (format_2f (c_balance_after_trade c));
    c_order_id c; c_status c ].

(** [log_trade(...)].  The creation of the folder is not modelled. *)
Definition log_trade (c : Call) (st : Logger) : Logger :=
  let started :=
    match session_log_filename st with
    | None =>
        let name := new_session_log_filename c in
        {| session_log_filename := Some name;
           files := write_file (files st) name [header] |}
    | Some _ => st
    end in
  match session_log_filename started with
  | Some name =>
      {| session_log_filename := Some name;
         files := append_file (files started) name (row_of c) |}
  | None => started
  end.

(** The calls of a process, in order. *)
Definition log_all (calls : list Call) (st : Logger) : Logger :=
  fold_left (fun s c => log_trade c s) calls st.

End Formatting.

End trade_logger.

(** Every character of [s] satisfies [p]. *)
Fixpoint string_forall (p : Ascii.ascii -> bool) (s : string) : bool :=
  match s with
  | EmptyString => true
  | String a rest => p a && string_forall p rest
  end.

(** A decimal digit or a minus sign: the characters of a formatted
    number other than the point. *)
Definition is_digit_or_sign (a : Ascii.ascii) : bool :=
  let n := Ascii.nat_of_ascii a in
  ((48 <=? n)%nat && (n <=? 57)%nat) || (n =? 45)%nat.

(** ** The balance, row by row *)

(** A returned or logged pair (PnL, balance after) accounts for the
    balance [before] it: the balance after is [before + pnl], the
    addition [execute_order] performs on a closing fill, or the PnL is 0
    and the balance is the one before. *)
Definition accounts_for (before pnl_ after_ : Q) : Prop :=
  after_ = before + pnl_ \/ (pnl_ = 0 /\ after_ = before).

(** Every row of a trade log accounts for the balance of the row before
    it, the first one for [before]. *)
Fixpoint ledger (before : Q) (log : list TradeRecord) : Prop :=
  match log with
  | [] => True
  | t :: rest =>
      accounts_for before (tr_pnl t) (tr_balance_after_trade t) /\
      ledger (tr_balance_after_trade t) rest
  end.

(** The balance in the last row of a log; [before] for an empty log. *)
Definition closing_balance (before : Q) (log : list TradeRecord) : Q :=
  last (map tr_balance_after_trade log) before.

(** The same for the results of a sequence of [execute_order] calls. *)
Fixpoint results_ledger (before : Q) (results : list OrderResult) : Prop :=
  match results with
  | [] => True
  | r :: rest =>
      accounts_for before (pnl r) (balance_after_trade r) /\
      results_ledger (balance_after_trade r) rest
  end.

Definition last_balance (before : Q) (results : list OrderResult) : Q :=
  last (map balance_after_trade results) before.

(** What the loop keeps true of the log and the balance. *)
Definition balanced (cfg : Config) (w : World) : Prop :=
  ledger (BACKTEST_INITIAL_CAPITAL cfg) (trade_log w) /\
  current_balance (simulated_bybit_client w) =
    closing_balance (BACKTEST_INITIAL_CAPITAL cfg) (trade_log w).

(** ** The same code on IEEE 754 doubles

    [Binary64] is [SimulatedBybitClient] and [run_backtest] once more,
    with Python's [float] as the binary64 floats of the kernel: every
    [+], [-], [*], [/], [<] and [<=] rounds and compares as the
    interpreter does.  It serves to evaluate the code on concrete inputs
    where rounding matters; the instrumentation of [World] is left out. *)

Module Binary64.

Import PrimFloat.
#[local] Set Warnings "-inexact-float,-notation-overridden".
Local Open Scope float_scope.

(** The threshold [1e-9]. *)
Definition epsilon : float := 1e-9.

(** Python's builtin [min(a, b)]. *)
Definition py_min (a b : float) : float := if b <? a then b else a.

(** *** services/bybit_client.py *)

Record Position : Type := mkPosition {
  symbol : option string;
  size : float;
  side : string;
  entry_price : float
}.

Record SimulatedBybitClient : Type := mkClient {
  current_balance : float;
  initial_capital : float;
  commission_rate : float;
  current_position : Position
}.

Definition init (initial_capital commission_rate : float) : SimulatedBybitClient :=
  {| current_balance := initial_capital;
     initial_capital := initial_capital;
     commission_rate := commission_rate;
     current_position :=
       {| symbol := None; size := 0; side := "None"; entry_price := 0 |} |}.

Definition get_current_position (self : SimulatedBybitClient)
  : float * string * float :=
  let pos := current_position self in
  (size pos, side pos, entry_price pos).

Record OrderResult : Type := mkResult {
  success : bool;
  order_id : string;
  pnl : float;
  balance_after_trade : float
}.

Definition classify (current_size : float) (current_side order_side : string)
  : OrderKind :=
  if (epsilon <? current_size)
     && ((String.eqb current_side "Long" && String.eqb order_side "Sell")
         || (String.eqb current_side "Short" && String.eqb order_side "Buy"))
  then Closing
  else if current_size <? epsilon then Opening
  else if (epsilon <? current_size) && String.eqb current_side order_side
  then Extending
  else Rejected.

Definition execute_order (self : SimulatedBybitClient)
    (uuid : string) (sym order_side : string) (quantity price : float)
    (timestamp : Z) : OrderResult * SimulatedBybitClient :=
  let current_size := size (current_position self) in
  let current_side := side (current_position self) in
  let current_entry_price := entry_price (current_position self) in
  match classify current_size current_side order_side with
  | Rejected =>
      ({| success := false; order_id := uuid; pnl := 0;
          balance_after_trade := current_balance self |}, self)
  | Closing =>
      let close_amount := py_min quantity current_size in
      let pnl_on_this_trade :=
        if String.eqb current_side "Long"
        then (price - current_entry_price) * close_amount
        else (current_entry_price - price) * close_amount in
      let balance := current_balance self + pnl_on_this_trade in
      let remaining := current_size - close_amount in
      let pos :=
        if remaining <=? epsilon
        then {| symbol := symbol (current_position self);
                size := 0; side := "None"; entry_price := 0 |}
        else {| symbol := symbol (current_position self);
                size := remaining; side := current_side;
                entry_price := current_entry_price |} in
      ({| success := true; order_id := uuid; pnl := pnl_on_this_trade;
          balance_after_trade := balance |},
       {| current_balance := balance;
          initial_capital := initial_capital self;
          commission_rate := commission_rate self;
          current_position := pos |})
  | Opening =>
      ({| success := true; order_id := uuid; pnl := 0;
          balance_after_trade := current_balance self |},
       {| current_balance := current_balance self;
          initial_capital := initial_capital self;
          commission_rate := commission_rate self;
          current_position :=
            {| symbol := Some sym;
               size := quantity;
               side := if String.eqb order_side "Buy" then "Long" else "Short";
               entry_price := price |} |})
  | Extending =>
      let old_total_value := current_size * current_entry_price in
      let new_trade_value := quantity * price in
      let new_total_size := current_size + quantity in
      let new_avg_entry_price :=
        if 0 <? new_total_size
        then (old_total_value + new_trade_value) / new_total_size
        else 0 in
      ({| success := true; order_id := uuid; pnl := 0;
          balance_after_trade := current_balance self |},
       {| current_balance := current_balance self;
          initial_capital := initial_capital self;
          commission_rate := commission_rate self;
          current_position :=
            {| symbol := symbol (current_position self);
               size := new_total_size;
               side := current_side;
               entry_price := new_avg_entry_price |} |})
  end.

(** *** config.py *)

Record Config : Type := mkConfig {
  SYMBOL : string;
  TRADE_QUANTITY : float;
  BACKTEST_INITIAL_CAPITAL : float;
  BACKTEST_COMMISSION_RATE : float
}.

(** The values of the module as it is in the repository. *)
Definition config : Config :=
  {| SYMBOL := "BTCUSDT";
     TRADE_QUANTITY := 0.1;
     BACKTEST_INITIAL_CAPITAL := 10000;
     BACKTEST_COMMISSION_RATE := 0.00075 |}.

(** *** backtester.py *)

Record Candle : Type := mkCandle {
  Timestamp : Z;
  close : float
}.

Definition DataFrame : Type := list Candle.

Definition iloc (df : DataFrame) (i : nat) : option Candle := nth_error df i.

Definition iloc_last (df : DataFrame) : option Candle :=
  nth_error df (List.length df - 1).

Definition iloc_slice (df : DataFrame) (stop : nat) : DataFrame := firstn stop df.

Record TradeRecord : Type := mkTrade {
  tr_symbol : string;
  tr_action : string;
  tr_side : string;
  tr_quantity : float;
  tr_price : float;
  tr_pnl : float;
  tr_balance_after_trade : float;
  tr_order_id : string;
  tr_status : string
}.

Record World : Type := mkWorld {
  simulated_bybit_client : SimulatedBybitClient;
  uuid_drawn : nat;
  trade_log : list TradeRecord
}.

Definition M (A : Type) : Type := World -> option (A * World).

Definition ret {A : Type} (a : A) : M A := fun w => Some (a, w).

Definition bind {A B : Type} (m : M A) (k : A -> M B) : M B :=
  fun w => match m w with
           | Some (a, w') => k a w'
           | None => None
           end.

Definition raise {A : Type} : M A := fun _ => None.

Notation "x <- m ;; k" := (bind m (fun x => k))
  (at level 61, m at next level, right associativity).
Notation "m ;;; k" := (bind m (fun _ => k))
  (at level 61, right associativity).

Definition lift_option {A : Type} (o : option A) : M A :=
  match o with
  | Some a => ret a
  | None => raise
  end.

Fixpoint for_each (l : list nat) (body : nat -> M unit) : M unit :=
  match l with
  | [] => ret tt
  | i :: l' => body i ;;; for_each l' body
  end.

Definition log_trade (sym action sd : string) (quantity price pnl_ balance : float)
    (oid status : string) : M unit :=
  fun w =>
    Some (tt,
      {| simulated_bybit_client := simulated_bybit_client w;
         uuid_drawn := uuid_drawn w;
         trade_log := trade_log w ++
           [{| tr_symbol := sym; tr_action := action; tr_side := sd;
               tr_quantity := quantity; tr_price := price; tr_pnl := pnl_;
               tr_balance_after_trade := balance; tr_order_id := oid;
               tr_status := status |}] |}).

Definition client_get_current_position : M (float * string * float) :=
  fun w => Some (get_current_position (simulated_bybit_client w), w).

Definition client_current_balance : M float :=
  fun w => Some (current_balance (simulated_bybit_client w), w).

Section Backtester.

Variable cfg : Config.
Variable generate_signal : DataFrame -> string.
Variable uuid4 : nat -> string.
Variable current_backtest_symbol : string.
Variable df_historical : DataFrame.

Definition call_generate_signal (current_data_slice : DataFrame) : M string :=
  fun w => Some (generate_signal current_data_slice, w).

Definition client_execute_order (order_side : string) (quantity price : float)
    (timestamp : Z) : M OrderResult :=
  fun w =>
    let r := execute_order (simulated_bybit_client w) (uuid4 (uuid_drawn w))
               current_backtest_symbol order_side quantity price timestamp in
    Some (fst r,
      {| simulated_bybit_client := snd r;
         uuid_drawn := S (uuid_drawn w);
         trade_log := trade_log w |}).

Definition loop_body (i : nat) : M unit :=
  let current_data_slice := iloc_slice df_historical (i + 1) in
  row <- lift_option (iloc df_historical i) ;;
  let current_candle_close := close row in
  let current_candle_timestamp := Timestamp row in
  signal <- call_generate_signal current_data_slice ;;
  pos <- client_get_current_position ;;
  let current_position_size := fst (fst pos) in
  let current_position_side := snd (fst pos) in
  if String.eqb signal "BUY" then
    if negb (String.eqb current_position_side "Long") then
      (if String.eqb current_position_side "Short" then
         close_res <- client_execute_order "Buy" current_position_size
                        current_candle_close current_candle_timestamp ;;
         if success close_res then
           log_trade current_backtest_symbol "CLOSE_POSITION" "Buy"
             current_position_size current_candle_close (pnl close_res)
             (balance_after_trade close_res) (order_id close_res)
             "CLOSED_SHORT"
         else ret tt
       else ret tt) ;;;
      open_res <- client_execute_order "Buy" (TRADE_QUANTITY cfg)
                    current_candle_close current_candle_timestamp ;;
      if success open_res then
        log_trade current_backtest_symbol "OPEN_POSITION" "Buy"
          (TRADE_QUANTITY cfg) current_candle_close 0
          (balance_after_trade open_res) (order_id open_res)
          "EXECUTED_LONG"
      else ret tt
    else ret tt
  else if String.eqb signal "SELL" then
    if negb (String.eqb current_position_side "Short") then
      (if String.eqb current_position_side "Long" then
         close_res <- client_execute_order "Sell" current_position_size
                        current_candle_close current_candle_timestamp ;;
         if success close_res then
           log_trade current_backtest_symbol "CLOSE_POSITION" "Sell"
             current_position_size current_candle_close (pnl close_res)
             (balance_after_trade close_res) (order_id close_res)
             "CLOSED_LONG"
         else ret tt
       else ret tt) ;;;
      open_res <- client_execute_order "Sell" (TRADE_QUANTITY cfg)
                    current_candle_close current_candle_timestamp ;;
      if success open_res then
        log_trade current_backtest_symbol "OPEN_POSITION" "Sell"
          (TRADE_QUANTITY cfg) current_candle_close 0
          (balance_after_trade open_res) (order_id open_res)
          "EXECUTED_SHORT"
      else ret tt
    else ret tt
  else ret tt.

Definition replay : M unit :=
  for_each (seq 0 (List.length df_historical)) loop_body.

Definition terminal_liquidation : M unit :=
  pos <- client_get_current_position ;;
  let final_position_size := fst (fst pos) in
  let final_position_side := snd (fst pos) in
  if negb (String.eqb final_position_side "None") then
    row <- lift_option (iloc_last df_historical) ;;
    let final_candle_close := close row in
    let final_candle_timestamp := Timestamp row in
    if String.eqb final_position_side "Long" then
      sim_res <- client_execute_order "Sell" final_position_size
                   final_candle_close final_candle_timestamp ;;
      log_trade current_backtest_symbol "CLOSE_POSITION" "Sell"
        final_position_size final_candle_close (pnl sim_res)
        (balance_after_trade sim_res) "SIM_FINAL_CLOSE_LONG" "CLOSED_AT_END"
    else if String.eqb final_position_side "Short" then
      sim_res <- client_execute_order "Buy" final_position_size
                   final_candle_close final_candle_timestamp ;;
      log_trade current_backtest_symbol "CLOSE_POSITION" "Buy"
        final_position_size final_candle_close (pnl sim_res)
        (balance_after_trade sim_res) "SIM_FINAL_CLOSE_SHORT" "CLOSED_AT_END"
    else ret tt
  else ret tt.

Definition initial_world : World :=
  {| simulated_bybit_client :=
       init (BACKTEST_INITIAL_CAPITAL cfg) (BACKTEST_COMMISSION_RATE cfg);
     uuid_drawn := O;
     trade_log := [] |}.

Definition backtest : M unit :=
  balance <- client_current_balance ;;
  log_trade current_backtest_symbol "START_BACKTEST" "N/A" 0 0 0 balance
    "N/A" "INITIALIZED" ;;;
  replay ;;;
  terminal_liquidation.

Definition run_backtest : option World :=
  match backtest initial_world with
  | Some (_, w) => Some w
  | None => None
  end.

End Backtester.

(** *** Vocabulary and test data *)

(** The sum of the PnL column of a trade log, added from the first row
    on as Python's [sum] does. *)
Definition sum_pnl (log : list TradeRecord) : float :=
  fold_left (fun acc t => acc + tr_pnl t) log 0.

(** Final balance minus initial capital, as the summary of
    [run_backtest] computes it. *)
Definition net_pnl (cfg : Config) (w : World) : float :=
  current_balance (simulated_bybit_client w) - BACKTEST_INITIAL_CAPITAL cfg.

(** Two candles, closing at 100.1 and at 100.3. *)
Definition two_bars : DataFrame := [mkCandle 1 100.1; mkCandle 2 100.3].

(** BUY on the first candle, HOLD afterwards. *)
Definition buy_once (df : DataFrame) : string :=
  match List.length df with
  | 1%nat => "BUY"
  | _ => "HOLD"
  end.

End Binary64.

(** * Properties *)

Local Open Scope list_scope.

(** ** Comparisons and [min] *)

Lemma Qltb_lt (x y : Q) : Qltb x y = true <-> x < y.
Proof.
  unfold Qltb. rewrite negb_true_iff.
  destruct (Qle_bool y x) eqn:E.
  - apply Qle_bool_iff in E. split; [discriminate | intro H; lra].
  - split; [intros _ | reflexivity].
    destruct (Qlt_le_dec x y) as [H | H]; [exact H |].
    apply Qle_bool_iff in H. congruence.
Qed.

Lemma Qltb_ge (x y : Q) : Qltb x y = false <-> y <= x.
Proof.
  unfold Qltb. rewrite negb_false_iff. apply Qle_bool_iff.
Qed.

Lemma Qle_bool_gt (x y : Q) : Qle_bool x y = false <-> y < x.
Proof.
  rewrite <- Qltb_lt. unfold Qltb.
  destruct (Qle_bool x y); simpl; split; congruence.
Qed.

Lemma py_min_Qmin (a b : Q) : py_min a b == Qmin a b.
Proof.
  unfold py_min. destruct (Qltb b a) eqn:E.
  - apply Qltb_lt in E. rewrite Q.min_r; [reflexivity | lra].
  - apply Qltb_ge in E. rewrite Q.min_l; [reflexivity | lra].
Qed.

Lemma py_min_same (a : Q) : py_min a a = a.
Proof. unfold py_min. destruct (Qltb a a); reflexivity. Qed.

(** ** The classification chain of [execute_order] *)

Lemma classify_Closing (s : Q) (sd os : string) :
  classify s sd os = Closing <->
  epsilon < s /\ ((sd = "Long" /\ os = "Sell") \/ (sd = "Short" /\ os = "Buy")).
Proof.
  split.
  - unfold classify. destruct (Qltb epsilon s) eqn:Es; simpl.
    + destruct (String.eqb sd "Long" && String.eqb os "Sell"
                || String.eqb sd "Short" && String.eqb os "Buy") eqn:E.
      * intros _. split; [apply Qltb_lt; exact Es |].
        apply orb_true_iff in E.
        destruct E as [E | E]; apply andb_true_iff in E; destruct E as [E1 E2];
          apply String.eqb_eq in E1; apply String.eqb_eq in E2; auto.
      * destruct (Qltb s epsilon); [discriminate |].
        destruct (String.eqb sd os); discriminate.
    + destruct (Qltb s epsilon); discriminate.
  - intros [Hs [[-> ->] | [-> ->]]]; unfold classify;
      rewrite (proj2 (Qltb_lt _ _) Hs); reflexivity.
Qed.

Lemma classify_Opening (s : Q) (sd os : string) :
  classify s sd os = Opening <-> s < epsilon.
Proof.
  split.
  - unfold classify. intro H.
    destruct (Qltb epsilon s && _); [discriminate |].
    destruct (Qltb s epsilon) eqn:E; [apply Qltb_lt; exact E |].
    destruct (Qltb epsilon s && _); discriminate.
  - intro H. unfold classify.
    assert (E1 : Qltb epsilon s = false) by (apply Qltb_ge; lra).
    assert (E2 : Qltb s epsilon = true) by (apply Qltb_lt; exact H).
    rewrite E1, E2. reflexivity.
Qed.

Lemma classify_Extending (s : Q) (sd os : string) :
  classify s sd os = Extending -> epsilon < s /\ sd = os.
Proof.
  unfold classify.
  destruct (Qltb epsilon s && _); [discriminate |].
  destruct (Qltb s epsilon); [discriminate |].
  destruct (Qltb epsilon s) eqn:E1; simpl; [| discriminate].
  destruct (String.eqb sd os) eqn:E2; [| discriminate].
  intros _. split; [apply Qltb_lt; exact E1 | apply String.eqb_eq; exact E2].
Qed.

(** At exactly [epsilon] no branch of the chain applies. *)
Lemma classify_at_epsilon (s : Q) (sd os : string) :
  s == epsilon -> classify s sd os = Rejected.
Proof.
  intro H. unfold classify.
  assert (E1 : Qltb epsilon s = false) by (apply Qltb_ge; lra).
  assert (E2 : Qltb s epsilon = false) by (apply Qltb_ge; lra).
  rewrite E1, E2. reflexivity.
Qed.

(** With the documented order sides, the position sides the client
    itself writes are never equal to the order side: the third test of
    the chain compares ["Long"]/["Short"] with ["Buy"]/["Sell"]. *)
Lemma classify_never_Extending (s : Q) (sd os : string) :
  sd = "Long" \/ sd = "Short" \/ sd = "None" ->
  os = "Buy" \/ os = "Sell" ->
  classify s sd os <> Extending.
Proof.
  intros Hsd Hos H. apply classify_Extending in H. destruct H as [_ H].
  destruct Hsd as [-> | [-> | ->]], Hos as [-> | ->]; discriminate.
Qed.

(** ** Frame facts about [execute_order] *)

Lemma execute_order_success (self : SimulatedBybitClient)
    (uuid sym os : string) (q p : Q) (ts : Z) :
  success (fst (execute_order self uuid sym os q p ts)) =
  match classify (size (current_position self)) (side (current_position self)) os with
  | Rejected => false
  | _ => true
  end.
Proof. unfold execute_order. destruct (classify _ _ _); reflexivity. Qed.

Lemma execute_order_failure_unchanged (self : SimulatedBybitClient)
    (uuid sym os : string) (q p : Q) (ts : Z) :
  success (fst (execute_order self uuid sym os q p ts)) = false ->
  snd (execute_order self uuid sym os q p ts) = self.
Proof. unfold execute_order. destruct (classify _ _ _); simpl; congruence. Qed.

Lemma execute_order_balance_after (self : SimulatedBybitClient)
    (uuid sym os : string) (q p : Q) (ts : Z) :
  balance_after_trade (fst (execute_order self uuid sym os q p ts)) =
  current_balance (snd (execute_order self uuid sym os q p ts)).
Proof. unfold execute_order. destruct (classify _ _ _); reflexivity. Qed.

(** The balance moves by the returned PnL, whatever the branch. *)
Lemma execute_order_balance_pnl (self : SimulatedBybitClient)
    (uuid sym os : string) (q p : Q) (ts : Z) :
  current_balance (snd (execute_order self uuid sym os q p ts)) ==
  current_balance self + pnl (fst (execute_order self uuid sym os q p ts)).
Proof. unfold execute_order. destruct (classify _ _ _); simpl; lra. Qed.

(** Only a closing fill writes the balance. *)
Lemma execute_order_balance_frame (self : SimulatedBybitClient)
    (uuid sym os : string) (q p : Q) (ts : Z) :
  classify (size (current_position self)) (side (current_position self)) os
    <> Closing ->
  current_balance (snd (execute_order self uuid sym os q p ts)) =
    current_balance self /\
  pnl (fst (execute_order self uuid sym os q p ts)) = 0.
Proof.
  unfold execute_order. destruct (classify _ _ _); simpl; intro H;
    solve [split; reflexivity | contradiction H; reflexivity].
Qed.

(** An opening fill, for a position size strictly below [epsilon]. *)
Lemma execute_order_opening (self : SimulatedBybitClient)
    (uuid sym os : string) (q p : Q) (ts : Z) :
  size (current_position self) < epsilon ->
  execute_order self uuid sym os q p ts =
  ({| success := true; order_id := uuid; pnl := 0;
      balance_after_trade := current_balance self |},
   {| current_balance := current_balance self;
      initial_capital := initial_capital self;
      commission_rate := commission_rate self;
      current_position :=
        {| symbol := Some sym; size := q;
           side := if String.eqb os "Buy" then "Long" else "Short";
           entry_price := p |} |}).
Proof.
  intro H. unfold execute_order.
  rewrite (proj2 (classify_Opening _ _ _) H). reflexivity.
Qed.

(** Closing the whole position leaves the client flat. *)
Lemma execute_order_full_close (self : SimulatedBybitClient)
    (uuid sym os : string) (p : Q) (ts : Z) :
  classify (size (current_position self)) (side (current_position self)) os
    = Closing ->
  current_position
    (snd (execute_order self uuid sym os (size (current_position self)) p ts)) =
  {| symbol := symbol (current_position self);
     size := 0; side := "None"; entry_price := 0 |}.
Proof.
  intro H. unfold execute_order. rewrite H. simpl.
  rewrite py_min_same.
  assert (E : Qle_bool (size (current_position self) - size (current_position self))
                epsilon = true).
  { apply Qle_bool_iff. unfold epsilon. lra. }
  rewrite E. reflexivity.
Qed.

(** ** Fills, one call at a time *)

(** C4. Closing-fill PnL: when the position is larger than [epsilon]
    and the order side is the opposite one (Sell against Long, Buy
    against Short), the fill is classified as closing, the closed amount
    is [min(quantity, size)], the realized PnL is
    [(price - entry) * closed] for a Long and [(entry - price) * closed]
    for a Short, and exactly that PnL is added to the balance.  A Long of
    size 2 entered at 100 and closed at 110 realizes +20; the same Short
    realizes -20. *)
Theorem closing_fill_pnl :
  (forall (self : SimulatedBybitClient) (uuid sym order_side : string)
          (quantity price : Q) (timestamp : Z),
      epsilon < size (current_position self) ->
      (side (current_position self) = "Long" /\ order_side = "Sell") \/
      (side (current_position self) = "Short" /\ order_side = "Buy") ->
      let pos := current_position self in
      let r := execute_order self uuid sym order_side quantity price timestamp in
      let close_amount := Qmin quantity (size pos) in
      classify (size pos) (side pos) order_side = Closing /\
      success (fst r) = true /\
      (side pos = "Long" ->
         pnl (fst r) == (price - entry_price pos) * close_amount) /\
      (side pos = "Short" ->
         pnl (fst r) == (entry_price pos - price) * close_amount) /\
      current_balance (snd r) == current_balance self + pnl (fst r) /\
      balance_after_trade (fst r) = current_balance (snd r) /\
      (size pos - close_amount <= epsilon ->
         size (current_position (snd r)) = 0 /\
         side (current_position (snd r)) = "None") /\
      (epsilon < size pos - close_amount ->
         size (current_position (snd r)) == size pos - close_amount /\
         side (current_position (snd r)) = side pos /\
         entry_price (current_position (snd r)) = entry_price pos))
  /\ (let r := execute_order
                 (mkClient 10000 10000 0 (mkPosition None 2 "Long" 100))
                 "id" "BTCUSDT" "Sell" 2 110 0 in
      pnl (fst r) == 20 /\ current_balance (snd r) == 10020)
  /\ (let r := execute_order
                 (mkClient 10000 10000 0 (mkPosition None 2 "Short" 100))
                 "id" "BTCUSDT" "Buy" 2 110 0 in
      pnl (fst r) == -20 /\ current_balance (snd r) == 9980).
Proof.
  split; [| split; vm_compute; split; reflexivity].
  intros self uuid sym os q p ts Hs Hopp pos r close_amount.
  assert (Hc : classify (size pos) (side pos) os = Closing)
    by (apply classify_Closing; split; assumption).
  assert (Hmin : py_min q (size pos) == close_amount) by apply py_min_Qmin.
  subst r. unfold execute_order. fold pos. rewrite Hc. cbn [fst snd success pnl
    current_balance balance_after_trade current_position].
  split; [reflexivity |]. split; [reflexivity |].
  split; [| split; [| split; [| split; [| split]]]].
  - intro HL. rewrite HL. simpl. rewrite Hmin. reflexivity.
  - intro HS. rewrite HS. simpl. rewrite Hmin. reflexivity.
  - reflexivity.
  - reflexivity.
  - intro Hle. rewrite <- Hmin in Hle. apply Qle_bool_iff in Hle.
    rewrite Hle. split; reflexivity.
  - intro Hgt. rewrite <- Hmin in Hgt. apply Qle_bool_gt in Hgt.
    rewrite Hgt. cbn [size side entry_price]. rewrite Hmin.
    split; [reflexivity | split; reflexivity].
Qed.

(** A partial close: 1 of a Long of 2 entered at 100, sold at 110. *)
Lemma closing_fill_pnl_witness :
  let self := mkClient 10000 10000 0 (mkPosition None 2 "Long" 100) in
  let r := execute_order self "id" "BTCUSDT" "Sell" 1 110 0 in
  success (fst r) = true /\
  pnl (fst r) == (110 - 100) * Qmin 1 2 /\
  size (current_position (snd r)) == 2 - Qmin 1 2.
Proof.
  intros self r.
  assert (Hs : epsilon < size (current_position self)) by reflexivity.
  assert (Ho : (side (current_position self) = "Long" /\ "Sell" = "Sell") \/
               (side (current_position self) = "Short" /\ "Sell" = "Buy"))
    by (left; split; reflexivity).
  destruct (proj1 closing_fill_pnl self "id" "BTCUSDT" "Sell" 1 110 0%Z Hs Ho)
    as (_ & Hsucc & HL & _ & _ & _ & _ & Hrest).
  split; [exact Hsucc |].
  split; [exact (HL eq_refl) |].
  apply Hrest. reflexivity.
Defined.

(** C7. Reject atomicity: a fill that falls into the [else] of the
    classification chain returns [success = False] with PnL 0 and the
    balance it found, and leaves the whole client (balance, position
    size, side and entry price) as it was. *)
Theorem reject_atomicity :
  forall (self : SimulatedBybitClient) (uuid sym order_side : string)
         (quantity price : Q) (timestamp : Z),
    classify (size (current_position self)) (side (current_position self))
      order_side = Rejected ->
    let r := execute_order self uuid sym order_side quantity price timestamp in
    success (fst r) = false /\
    pnl (fst r) = 0 /\
    balance_after_trade (fst r) = current_balance self /\
    snd r = self.
Proof.
  intros self uuid sym os q p ts H r. subst r.
  unfold execute_order. rewrite H. simpl. repeat split.
Qed.

(** A Long of 1 that receives a Buy order is rejected. *)
Lemma reject_atomicity_witness :
  let self := mkClient 10000 10000 0 (mkPosition (Some "BTCUSDT") 1 "Long" 100) in
  let r := execute_order self "id" "BTCUSDT" "Buy" 1 200 0 in
  success (fst r) = false /\
  pnl (fst r) = 0 /\
  balance_after_trade (fst r) = 10000 /\
  snd r = self.
Proof.
  intros self r.
  exact (reject_atomicity self "id" "BTCUSDT" "Buy" 1 200 0%Z eq_refl).
Defined.

(** C6, at the boundary.  A position of size exactly [epsilon] is what
    an opening fill of quantity [epsilon] leaves; the next fill on it,
    whatever its side, is neither opening nor closing: it is rejected
    and the position stays. *)
Theorem opening_at_epsilon_is_rejected :
  let self := snd (execute_order (init 10000 0) "id0" "BTCUSDT" "Buy" epsilon 100 0) in
  size (current_position self) = epsilon /\
  side (current_position self) = "Long" /\
  classify epsilon "Long" "Sell" = Rejected /\
  classify epsilon "Long" "Buy" = Rejected /\
  execute_order self "id1" "BTCUSDT" "Sell" 1 110 0 =
    ({| success := false; order_id := "id1"; pnl := 0;
        balance_after_trade := 10000 |}, self) /\
  execute_order self "id1" "BTCUSDT" "Buy" 1 110 0 =
    ({| success := false; order_id := "id1"; pnl := 0;
        balance_after_trade := 10000 |}, self).
Proof. vm_compute. repeat split. Qed.

(** C9, on the documented order sides.  A Long of size 1 entered at 100
    that receives a Buy of 1 at 200 is not extended: the call is rejected
    and the position keeps size 1 and entry price 100. *)
Theorem extending_long_with_buy_is_rejected :
  let self := mkClient 10000 10000 0 (mkPosition (Some "BTCUSDT") 1 "Long" 100) in
  classify 1 "Long" "Buy" = Rejected /\
  execute_order self "id" "BTCUSDT" "Buy" 1 200 0 =
    ({| success := false; order_id := "id"; pnl := 0;
        balance_after_trade := 10000 |}, self) /\
  classify 1 "Short" "Sell" = Rejected.
Proof. vm_compute. repeat split. Qed.

(** The extending branch itself computes the weighted average; it is
    taken only when the order side is spelled like the position side. *)
Lemma execute_order_extending (self : SimulatedBybitClient)
    (uuid sym os : string) (q p : Q) (ts : Z) :
  classify (size (current_position self)) (side (current_position self)) os
    = Extending ->
  0 < size (current_position self) + q ->
  let pos := current_position self in
  let r := execute_order self uuid sym os q p ts in
  success (fst r) = true /\ pnl (fst r) = 0 /\
  current_balance (snd r) = current_balance self /\
  size (current_position (snd r)) = size pos + q /\
  entry_price (current_position (snd r)) ==
    (size pos * entry_price pos + q * p) / (size pos + q).
Proof.
  intros H Hpos pos r. subst r pos. unfold execute_order. rewrite H.
  simpl. apply Qltb_lt in Hpos. rewrite Hpos.
  repeat split; reflexivity.
Qed.

(** ** Running the engine *)

Arguments execute_order : simpl never.

(** Unfolds the engine's monadic operations on an explicit state. *)
Ltac run_engine :=
  cbv beta iota zeta delta
    [bind ret raise lift_option call_generate_signal client_get_current_position
     client_current_balance client_execute_order log_trade get_current_position];
  cbn [fst snd simulated_bybit_client uuid_drawn trade_log strategy_calls
       order_calls].

(** Case analysis on every test the goal branches on. *)
Ltac split_ifs :=
  repeat match goal with
         | |- context [if ?b then _ else _] => destruct b eqn:?
         end.

(** Evaluates the comparisons of string literals. *)
Ltac string_tests :=
  cbn [String.eqb Ascii.eqb Bool.eqb negb andb orb].

Lemma iloc_in_range (df : DataFrame) (i : nat) :
  (i < List.length df)%nat -> exists row, iloc df i = Some row.
Proof.
  intro H. unfold iloc. destruct (nth_error df i) eqn:E.
  - eexists. reflexivity.
  - apply nth_error_None in E. lia.
Qed.

Lemma iloc_last_nonempty (df : DataFrame) :
  df = [] \/ exists row, iloc_last df = Some row.
Proof.
  destruct df as [| c df]; [left; reflexivity | right].
  unfold iloc_last. apply iloc_in_range. simpl. lia.
Qed.

(** The loop rule: an invariant indexed by the number of candles done. *)
Lemma for_each_invariant (I : nat -> World -> Prop) (body : nat -> M unit) :
  forall (len start : nat) (w : World),
    I start w ->
    (forall i w0, (start <= i < start + len)%nat -> I i w0 ->
       exists w1, body i w0 = Some (tt, w1) /\ I (S i) w1) ->
    exists w', for_each (seq start len) body w = Some (tt, w') /\
               I (start + len)%nat w'.
Proof.
  induction len as [| len IH]; intros start w HI Hbody.
  - exists w. split; [reflexivity |]. rewrite Nat.add_0_r. exact HI.
  - destruct (Hbody start w) as [w1 [E1 HI1]]; [lia | exact HI |].
    destruct (IH (S start) w1 HI1) as [w' [E' HI']].
    + intros i w0 Hi. apply Hbody. lia.
    + exists w'. split.
      * simpl. unfold bind. rewrite E1. exact E'.
      * replace (start + S len)%nat with (S start + len)%nat by lia. exact HI'.
Qed.

Section Engine_properties.

Variable cfg : Config.
Variable generate_signal : DataFrame -> string.
Variable uuid4 : nat -> string.
Variable sym : string.
Variable df : DataFrame.

Local Abbreviation loop_body' := (loop_body cfg generate_signal uuid4 sym df).
Local Abbreviation terminal' := (terminal_liquidation uuid4 sym df).
Local Abbreviation started := (started_world cfg sym).

(** A whole run, from an invariant of the loop and a fact about the
    terminal liquidation.  When the series is empty the loop leaves the
    state it started in. *)
Lemma backtest_run (I : nat -> World -> Prop) (F : World -> Prop) :
  I O started ->
  (forall i row w, iloc df i = Some row -> I i w ->
     exists w', loop_body' i w = Some (tt, w') /\ I (S i) w') ->
  (forall w, I (List.length df) w -> (df = [] -> w = started) ->
     exists w', terminal' w = Some (tt, w') /\ F w') ->
  exists w, run_backtest cfg generate_signal uuid4 sym df = Some w /\ F w.
Proof.
  intros H0 Hstep Hterm.
  destruct (for_each_invariant
              (fun n w => I n w /\ (df = [] -> w = started))
              loop_body' (List.length df) O started) as [w1 [E1 [HI1 Hnil]]].
  - split; [exact H0 | reflexivity].
  - intros i w0 Hi [HI0 _].
    destruct (iloc_in_range df i) as [row Hrow]; [lia |].
    destruct (Hstep i row w0 Hrow HI0) as [w1 [E1 HI1]].
    exists w1. split; [exact E1 |]. split; [exact HI1 |].
    intro Hdf. rewrite Hdf in Hi. simpl in Hi. lia.
  - destruct (Hterm w1 HI1 Hnil) as [w2 [E2 HF]].
    exists w2. split; [| exact HF].
    unfold run_backtest, backtest, replay, initial_world. run_engine.
    change (mkWorld
              (init (BACKTEST_INITIAL_CAPITAL cfg) (BACKTEST_COMMISSION_RATE cfg))
              O _ [] [])
      with started.
    simpl in E1. rewrite E1, E2. reflexivity.
Qed.

(** *** The strategy's inputs *)

Lemma loop_body_strategy_calls (i : nat) (row : Candle) (w : World) :
  iloc df i = Some row ->
  exists w', loop_body' i w = Some (tt, w') /\
             strategy_calls w' = strategy_calls w ++ [iloc_slice df (i + 1)].
Proof.
  intro Hrow. unfold loop_body. run_engine. rewrite Hrow.
  split_ifs; run_engine; eexists; split; reflexivity.
Qed.

Lemma terminal_total (w : World) :
  (df = [] -> w = started) ->
  exists w', terminal' w = Some (tt, w') /\
             strategy_calls w' = strategy_calls w.
Proof.
  intro Hnil. destruct (iloc_last_nonempty df) as [Hdf | [row Hrow]].
  - rewrite (Hnil Hdf). exists started. split; reflexivity.
  - unfold terminal_liquidation. run_engine. rewrite Hrow.
    split_ifs; run_engine; eexists; split; reflexivity.
Qed.

Lemma run_strategy_calls :
  exists w, run_backtest cfg generate_signal uuid4 sym df = Some w /\
    strategy_calls w =
      map (fun i => iloc_slice df (i + 1)) (seq 0 (List.length df)).
Proof.
  apply (backtest_run
           (fun n w => strategy_calls w =
                         map (fun i => iloc_slice df (i + 1)) (seq 0 n))).
  - reflexivity.
  - intros i row w Hrow HI.
    destruct (loop_body_strategy_calls i row w Hrow) as [w' [E Hs]].
    exists w'. split; [exact E |].
    rewrite Hs, HI, seq_S, map_app. reflexivity.
  - intros w HI Hnil. destruct (terminal_total w Hnil) as [w' [E Hs]].
    exists w'. split; [exact E |]. rewrite Hs. exact HI.
Qed.

End Engine_properties.

(** ** Accounting in exact arithmetic *)

(** Over the rationals the PnL column of the log sums to the final
    balance minus the initial capital.  On doubles each addition rounds
    and the sum need not be the difference; what holds addition by
    addition is in the next section. *)

Lemma sum_pnl_app (log : list TradeRecord) (t : TradeRecord) :
  sum_pnl (log ++ [t]) == sum_pnl log + tr_pnl t.
Proof.
  induction log as [| t0 log IH]; simpl.
  - lra.
  - rewrite IH. lra.
Qed.

Lemma sum_call_pnl_app (calls : list OrderCall) (c : OrderCall) :
  sum_call_pnl (calls ++ [c]) == sum_call_pnl calls + pnl (oc_result c).
Proof.
  induction calls as [| c0 calls IH]; simpl.
  - lra.
  - rewrite IH. lra.
Qed.

Lemma execute_order_failure_pnl (self : SimulatedBybitClient)
    (uuid sym os : string) (q p : Q) (ts : Z) :
  success (fst (execute_order self uuid sym os q p ts)) = false ->
  pnl (fst (execute_order self uuid sym os q p ts)) = 0.
Proof. unfold execute_order. destruct (classify _ _ _); simpl; congruence. Qed.

(** After a fill for the whole position, a second fill on the same side
    is never a closing one. *)
Lemma second_fill_not_closing (self : SimulatedBybitClient)
    (uuid sym os : string) (p : Q) (ts : Z) :
  let self_after :=
    snd (execute_order self uuid sym os (size (current_position self)) p ts) in
  classify (size (current_position self_after)) (side (current_position self_after)) os
    <> Closing.
Proof.
  intro self_after. subst self_after.
  destruct (classify (size (current_position self))
              (side (current_position self)) os) eqn:E.
  - rewrite (execute_order_full_close self uuid sym os p ts E). simpl.
    intro H. apply classify_Closing in H. destruct H as [H _].
    unfold epsilon in H. lra.
  - pose proof (proj1 (classify_Opening _ _ _) E) as Hlt.
    rewrite (execute_order_opening self uuid sym os _ p ts Hlt). simpl.
    intro H. apply classify_Closing in H. destruct H as [H _]. lra.
  - unfold execute_order. rewrite E. simpl.
    apply classify_Extending in E. destruct E as [_ E].
    intro H. apply classify_Closing in H.
    destruct H as [_ [[H1 H2] | [H1 H2]]]; rewrite H1 in E; rewrite H2 in E;
      discriminate E.
  - unfold execute_order. rewrite E. simpl. rewrite E. discriminate.
Qed.

Lemma first_fill_not_closing (pos : Position) (os other : string) :
  (os = "Buy" /\ other = "Short") \/ (os = "Sell" /\ other = "Long") ->
  String.eqb (side pos) other = false ->
  classify (size pos) (side pos) os <> Closing.
Proof.
  intros Hos Hne H. apply String.eqb_neq in Hne. apply classify_Closing in H.
  destruct H as [_ [[H1 H2] | [H1 H2]]], Hos as [[-> ->] | [-> ->]];
    try discriminate H2; contradiction.
Qed.

Lemma Qeq_eq_Q (x y : Q) : x = y -> x == y.
Proof. intros ->. reflexivity. Qed.

Section Engine_accounting.

Variable cfg : Config.
Variable generate_signal : DataFrame -> string.
Variable uuid4 : nat -> string.
Variable sym : string.
Variable df : DataFrame.

Ltac account_sums :=
  unfold accounted;
  cbn [simulated_bybit_client trade_log order_calls];
  repeat rewrite sum_pnl_app; repeat rewrite sum_call_pnl_app;
  cbn [tr_pnl oc_result].

(** The facts about the two legs of a reversal found in the goal: the
    close moves the balance by its PnL, the open that follows is never a
    closing fill. *)
Ltac reversal_facts c u0 u1 s os q2 p ts :=
  let B1 := fresh "B1" in
  let B2 := fresh "B2" in
  let P2 := fresh "P2" in
  pose proof (execute_order_balance_pnl c u0 s os (size (current_position c)) p ts)
    as B1;
  destruct (execute_order_balance_frame _ u1 s os q2 p ts
              (second_fill_not_closing c u0 s os p ts)) as [B2 P2];
  apply Qeq_eq_Q in B2; apply Qeq_eq_Q in P2.

Ltac failed_calls :=
  repeat match goal with
         | H : success (fst (execute_order _ _ _ _ _ _ _)) = false |- _ =>
             apply execute_order_failure_pnl in H; apply Qeq_eq_Q in H
         end.

Lemma loop_body_accounted (i : nat) (row : Candle) (w : World) :
  iloc df i = Some row -> accounted cfg w ->
  exists w', loop_body cfg generate_signal uuid4 sym df i w = Some (tt, w') /\
             accounted cfg w'.
Proof.
  intros Hrow [Hlog Hbal]. unfold loop_body. run_engine. rewrite Hrow.
  set (c := simulated_bybit_client w) in *.
  assert (Hopen : forall os other,
             (os = "Buy" /\ other = "Short") \/ (os = "Sell" /\ other = "Long") ->
             String.eqb (side (current_position c)) other = false ->
             forall u q p ts,
               current_balance (snd (execute_order c u sym os q p ts)) ==
                 current_balance c /\
               pnl (fst (execute_order c u sym os q p ts)) == 0).
  { intros os other Hos Hne u q p ts.
    destruct (execute_order_balance_frame c u sym os q p ts
                (first_fill_not_closing _ os other Hos Hne)) as [B P].
    rewrite B, P. split; reflexivity. }
  destruct (String.eqb (generate_signal _) "BUY").
  - destruct (String.eqb (side (current_position c)) "Long"); cbn [negb].
    + eexists. split; [reflexivity |]. split; assumption.
    + destruct (String.eqb (side (current_position c)) "Short") eqn:Eside.
      * run_engine.
        reversal_facts c (uuid4 (uuid_drawn w)) (uuid4 (S (uuid_drawn w))) sym
          "Buy" (TRADE_QUANTITY cfg) (close row) (Timestamp row).
        split_ifs; run_engine; failed_calls;
          (eexists; split; [reflexivity |]); account_sums; split; lra.
      * run_engine.
        destruct (Hopen "Buy" "Short" (or_introl (conj eq_refl eq_refl)) Eside
                    (uuid4 (uuid_drawn w)) (TRADE_QUANTITY cfg) (close row)
                    (Timestamp row)) as [B P].
        split_ifs; run_engine;
          (eexists; split; [reflexivity |]); account_sums; split; lra.
  - destruct (String.eqb (generate_signal _) "SELL").
    + destruct (String.eqb (side (current_position c)) "Short"); cbn [negb].
      * eexists. split; [reflexivity |]. split; assumption.
      * destruct (String.eqb (side (current_position c)) "Long") eqn:Eside.
        -- run_engine.
           reversal_facts c (uuid4 (uuid_drawn w)) (uuid4 (S (uuid_drawn w))) sym
             "Sell" (TRADE_QUANTITY cfg) (close row) (Timestamp row).
           split_ifs; run_engine; failed_calls;
             (eexists; split; [reflexivity |]); account_sums; split; lra.
        -- run_engine.
           destruct (Hopen "Sell" "Long" (or_intror (conj eq_refl eq_refl)) Eside
                       (uuid4 (uuid_drawn w)) (TRADE_QUANTITY cfg) (close row)
                       (Timestamp row)) as [B P].
           split_ifs; run_engine;
             (eexists; split; [reflexivity |]); account_sums; split; lra.
    + eexists. split; [reflexivity |]. split; assumption.
Qed.

Lemma terminal_accounted (w : World) :
  (df = [] -> w = started_world cfg sym) -> accounted cfg w ->
  exists w', terminal_liquidation uuid4 sym df w = Some (tt, w') /\ accounted cfg w'.
Proof.
  intros Hnil [Hlog Hbal]. destruct (iloc_last_nonempty df) as [Hdf | [row Hrow]].
  - rewrite (Hnil Hdf) in *. exists (started_world cfg sym).
    split; [reflexivity | split; assumption].
  - unfold terminal_liquidation. run_engine. rewrite Hrow.
    pose proof (fun os =>
                  execute_order_balance_pnl (simulated_bybit_client w)
                    (uuid4 (uuid_drawn w)) sym os
                    (size (current_position (simulated_bybit_client w)))
                    (close row) (Timestamp row)) as B.
    pose proof (B "Sell") as Bs. pose proof (B "Buy") as Bb.
    split_ifs; run_engine; (eexists; split; [reflexivity |]); account_sums;
      split; lra.
Qed.

Lemma run_accounted :
  exists w, run_backtest cfg generate_signal uuid4 sym df = Some w /\ accounted cfg w.
Proof.
  apply (backtest_run cfg generate_signal uuid4 sym df (fun _ => accounted cfg)).
  - unfold accounted. simpl. split; lra.
  - intros i row w Hrow. exact (loop_body_accounted i row w Hrow).
  - intros w HI Hnil. apply terminal_accounted; assumption.
Qed.

End Engine_accounting.

(** *** The balance, row by row *)

Lemma last_cons_default {A : Type} (a d : A) (l : list A) :
  last (a :: l) d = last l a.
Proof.
  revert a d. induction l as [| x l IH]; intros a d; [reflexivity |].
  change (last (a :: x :: l) d) with (last (x :: l) d).
  rewrite (IH x d), (IH x a). reflexivity.
Qed.

Lemma closing_balance_app (b : Q) (log : list TradeRecord) (t : TradeRecord) :
  closing_balance b (log ++ [t]) = tr_balance_after_trade t.
Proof. unfold closing_balance. rewrite map_app. apply last_last. Qed.

Lemma ledger_app (b : Q) (log : list TradeRecord) (t : TradeRecord) :
  ledger b log ->
  accounts_for (closing_balance b log) (tr_pnl t) (tr_balance_after_trade t) ->
  ledger b (log ++ [t]).
Proof.
  revert b. induction log as [| t0 log IH]; intros b Hl Ht.
  - split; [exact Ht | exact I].
  - destruct Hl as [H0 Hl]. split; [exact H0 |].
    apply IH; [exact Hl |].
    unfold closing_balance in *. cbn [map] in Ht.
    rewrite last_cons_default in Ht. exact Ht.
Qed.

(** Every call accounts for the balance it found, on the operations of
    the code: the closing branch returns [current_balance + pnl], the
    other branches return PnL 0 and the balance untouched. *)
Lemma execute_order_accounts (self : SimulatedBybitClient)
    (uuid sym os : string) (q p : Q) (ts : Z) :
  accounts_for (current_balance self)
    (pnl (fst (execute_order self uuid sym os q p ts)))
    (balance_after_trade (fst (execute_order self uuid sym os q p ts))) /\
  current_balance (snd (execute_order self uuid sym os q p ts)) =
    balance_after_trade (fst (execute_order self uuid sym os q p ts)).
Proof.
  unfold execute_order, accounts_for.
  destruct (classify _ _ _); cbn [fst snd pnl balance_after_trade current_balance];
    (split; [first [left; reflexivity | right; split; reflexivity] | reflexivity]).
Qed.

Section Engine_ledger.

Variable cfg : Config.
Variable generate_signal : DataFrame -> string.
Variable uuid4 : nat -> string.
Variable sym : string.
Variable df : DataFrame.

(** Closes the goal [balanced cfg w'] once the facts about the calls of
    the step are in the context. *)
Ltac ledger_done Hl Hb :=
  unfold balanced; cbn [simulated_bybit_client trade_log]; split;
  [ repeat apply ledger_app; try exact Hl;
    rewrite ?closing_balance_app; cbn [tr_pnl tr_balance_after_trade];
    rewrite <- ?Hb;
    first [ assumption | exact Hl | right; split; [reflexivity | congruence] ]
  | rewrite ?closing_balance_app; cbn [tr_balance_after_trade];
    rewrite <- ?Hb; congruence ].

(** The facts about the two legs of a reversal: the close accounts for
    the balance it found, the open that follows is never a closing fill
    and leaves the balance where the close put it. *)
Ltac ledger_reversal c u0 u1 s os q2 p ts :=
  let A1 := fresh "A1" in
  let B1 := fresh "B1" in
  let B2 := fresh "B2" in
  let P2 := fresh "P2" in
  let R2 := fresh "R2" in
  let U1 := fresh "U1" in
  destruct (execute_order_accounts c u0 s os (size (current_position c)) p ts)
    as [A1 B1];
  destruct (execute_order_balance_frame _ u1 s os q2 p ts
              (second_fill_not_closing c u0 s os p ts)) as [B2 P2];
  pose proof (execute_order_balance_after
                (snd (execute_order c u0 s os (size (current_position c)) p ts))
                u1 s os q2 p ts) as R2;
  pose proof (execute_order_failure_unchanged c u0 s os
                (size (current_position c)) p ts) as U1.

Ltac unchanged_on_failure :=
  repeat match goal with
         | U : false = false -> _ |- _ => specialize (U eq_refl)
         end.

Lemma loop_body_balanced (i : nat) (row : Candle) (w : World) :
  iloc df i = Some row -> balanced cfg w ->
  exists w', loop_body cfg generate_signal uuid4 sym df i w = Some (tt, w') /\
             balanced cfg w'.
Proof.
  intros Hrow [Hl Hb]. unfold loop_body. run_engine. rewrite Hrow.
  set (c := simulated_bybit_client w) in *.
  assert (Hopen : forall os other,
             (os = "Buy" /\ other = "Short") \/ (os = "Sell" /\ other = "Long") ->
             String.eqb (side (current_position c)) other = false ->
             forall u q p ts,
               balance_after_trade (fst (execute_order c u sym os q p ts)) =
                 current_balance c /\
               current_balance (snd (execute_order c u sym os q p ts)) =
                 current_balance c).
  { intros os other Hos Hne u q p ts.
    destruct (execute_order_balance_frame c u sym os q p ts
                (first_fill_not_closing _ os other Hos Hne)) as [B _].
    rewrite execute_order_balance_after. split; exact B. }
  destruct (String.eqb (generate_signal _) "BUY").
  - destruct (String.eqb (side (current_position c)) "Long"); cbn [negb].
    + eexists. split; [reflexivity |]. split; assumption.
    + destruct (String.eqb (side (current_position c)) "Short") eqn:Eside.
      * run_engine.
        ledger_reversal c (uuid4 (uuid_drawn w)) (uuid4 (S (uuid_drawn w))) sym
          "Buy" (TRADE_QUANTITY cfg) (close row) (Timestamp row).
        split_ifs; run_engine; unchanged_on_failure;
          (eexists; split; [reflexivity |]); ledger_done Hl Hb.
      * run_engine.
        destruct (Hopen "Buy" "Short" (or_introl (conj eq_refl eq_refl)) Eside
                    (uuid4 (uuid_drawn w)) (TRADE_QUANTITY cfg) (close row)
                    (Timestamp row)) as [R B].
        split_ifs; run_engine;
          (eexists; split; [reflexivity |]); ledger_done Hl Hb.
  - destruct (String.eqb (generate_signal _) "SELL").
    + destruct (String.eqb (side (current_position c)) "Short"); cbn [negb].
      * eexists. split; [reflexivity |]. split; assumption.
      * destruct (String.eqb (side (current_position c)) "Long") eqn:Eside.
        -- run_engine.
           ledger_reversal c (uuid4 (uuid_drawn w)) (uuid4 (S (uuid_drawn w))) sym
             "Sell" (TRADE_QUANTITY cfg) (close row) (Timestamp row).
           split_ifs; run_engine; unchanged_on_failure;
             (eexists; split; [reflexivity |]); ledger_done Hl Hb.
        -- run_engine.
           destruct (Hopen "Sell" "Long" (or_intror (conj eq_refl eq_refl)) Eside
                       (uuid4 (uuid_drawn w)) (TRADE_QUANTITY cfg) (close row)
                       (Timestamp row)) as [R B].
           split_ifs; run_engine;
             (eexists; split; [reflexivity |]); ledger_done Hl Hb.
    + eexists. split; [reflexivity |]. split; assumption.
Qed.

Lemma terminal_balanced (w : World) :
  (df = [] -> w = started_world cfg sym) -> balanced cfg w ->
  exists w', terminal_liquidation uuid4 sym df w = Some (tt, w') /\ balanced cfg w'.
Proof.
  intros Hnil [Hl Hb]. destruct (iloc_last_nonempty df) as [Hdf | [row Hrow]].
  - rewrite (Hnil Hdf) in *. exists (started_world cfg sym).
    split; [reflexivity | split; assumption].
  - unfold terminal_liquidation. run_engine. rewrite Hrow.
    pose proof (fun os =>
                  execute_order_accounts (simulated_bybit_client w)
                    (uuid4 (uuid_drawn w)) sym os
                    (size (current_position (simulated_bybit_client w)))
                    (close row) (Timestamp row)) as A.
    destruct (A "Sell") as [As Bs]. destruct (A "Buy") as [Ab Bb].
    split_ifs; run_engine; (eexists; split; [reflexivity |]);
      first [ split; assumption | ledger_done Hl Hb ].
Qed.

Lemma run_balanced :
  exists w, run_backtest cfg generate_signal uuid4 sym df = Some w /\ balanced cfg w.
Proof.
  apply (backtest_run cfg generate_signal uuid4 sym df (fun _ => balanced cfg)).
  - split.
    + split; [right; split; reflexivity | exact I].
    + reflexivity.
  - intros i row w Hrow. exact (loop_body_balanced i row w Hrow).
  - intros w HI Hnil. apply terminal_balanced; assumption.
Qed.

End Engine_ledger.

(** C3, amended.  Balance conservation, addition by addition: a run
    returns, and in its trade log every row accounts for the balance of
    the row before it, the first one for the initial capital: the row's
    balance is that balance plus the row's PnL (the addition
    [execute_order] performs on a closing fill), or the row's PnL is 0
    and the balance is unchanged; the final balance is the balance of
    the last row.  So the balance is written by logged closing fills
    only, and the final balance is the initial capital with the logged
    PnL added row after row. *)
Theorem balance_ledger :
  forall (cfg : Config) (generate_signal : DataFrame -> string)
         (uuid4 : nat -> string) (sym : string) (df : DataFrame),
  exists w,
    run_backtest cfg generate_signal uuid4 sym df = Some w /\
    ledger (BACKTEST_INITIAL_CAPITAL cfg) (trade_log w) /\
    current_balance (simulated_bybit_client w) =
      closing_balance (BACKTEST_INITIAL_CAPITAL cfg) (trade_log w).
Proof.
  intros cfg generate_signal uuid4 sym df.
  destruct (run_balanced cfg generate_signal uuid4 sym df) as [w [E [Hl Hb]]].
  exists w. split; [exact E |]. split; [exact Hl | exact Hb].
Qed.

(** C3 as stated fails on doubles.  With the configuration of the
    repository (quantity 0.1, capital 10000), closes 100.1 and 100.3 and
    a BUY on the first candle, the run opens Long 0.1 at 100.1 and the
    terminal liquidation sells it at 100.3.  The logged PnL sums to
    0.020000000000000285; the final balance minus the initial capital is
    0.020000000000436557. *)
Section Doubles.

Import PrimFloat.
#[local] Set Warnings "-inexact-float".

Lemma balance_conservation_fails_on_doubles :
  exists w,
    Binary64.run_backtest Binary64.config Binary64.buy_once uuid_stub
      "BTCUSDT" Binary64.two_bars = Some w /\
    Binary64.sum_pnl (Binary64.trade_log w) = 0.020000000000000285%float /\
    Binary64.net_pnl Binary64.config w = 0.020000000000436557%float /\
    PrimFloat.eqb (Binary64.sum_pnl (Binary64.trade_log w))
      (Binary64.net_pnl Binary64.config w) = false.
Proof. eexists. split; [vm_compute; reflexivity |]. vm_compute. repeat split. Qed.

End Doubles.

(** ** The engine's protocol, for a trade quantity above [epsilon] *)

Lemma all_calls_succeeded_app (calls : list OrderCall) (c : OrderCall) :
  Forall (fun c0 => success (oc_result c0) = true) calls ->
  success (oc_result c) = true ->
  Forall (fun c0 => success (oc_result c0) = true) (calls ++ [c]).
Proof.
  intros H Hc. apply Forall_app. split; [exact H |].
  constructor; [exact Hc | constructor].
Qed.

Ltac calls_done Hcalls :=
  unfold all_calls_succeeded; cbn [order_calls];
  repeat (apply all_calls_succeeded_app;
          [| first [ reflexivity
                   | match goal with H : success _ = true |- _ => exact H end ]]);
  exact Hcalls.

Section Engine_protocol.

Variable cfg : Config.
Variable generate_signal : DataFrame -> string.
Variable uuid4 : nat -> string.
Variable sym : string.
Variable df : DataFrame.
Hypothesis quantity_above_epsilon : epsilon < TRADE_QUANTITY cfg.

(** On a flat client an order opens a position of the given quantity. *)
Lemma open_on_flat (c : SimulatedBybitClient) (u os : string) (q p : Q) (ts : Z) :
  size (current_position c) = 0 ->
  execute_order c u sym os q p ts =
  ({| success := true; order_id := u; pnl := 0;
      balance_after_trade := current_balance c |},
   {| current_balance := current_balance c;
      initial_capital := initial_capital c;
      commission_rate := commission_rate c;
      current_position :=
        {| symbol := Some sym; size := q;
           side := if String.eqb os "Buy" then "Long" else "Short";
           entry_price := p |} |}).
Proof.
  intro Hz. apply execute_order_opening. rewrite Hz. reflexivity.
Qed.

(** On a position of the configured quantity, the opposite order for
    the whole size succeeds and leaves the client flat. *)
Lemma close_whole_position (c : SimulatedBybitClient) (u os : string) (p : Q) (ts : Z) :
  size (current_position c) = TRADE_QUANTITY cfg ->
  (side (current_position c) = "Long" /\ os = "Sell") \/
  (side (current_position c) = "Short" /\ os = "Buy") ->
  success (fst (execute_order c u sym os (size (current_position c)) p ts)) = true /\
  size (current_position
          (snd (execute_order c u sym os (size (current_position c)) p ts))) = 0 /\
  side (current_position
          (snd (execute_order c u sym os (size (current_position c)) p ts))) = "None".
Proof.
  intros Hz Hopp.
  assert (Hc : classify (size (current_position c)) (side (current_position c)) os
               = Closing).
  { apply classify_Closing. split; [rewrite Hz; exact quantity_above_epsilon | exact Hopp]. }
  rewrite execute_order_success, Hc.
  rewrite (execute_order_full_close c u sym os p ts Hc).
  repeat split.
Qed.

Lemma loop_body_protocol (i : nat) (row : Candle) (w : World) :
  iloc df i = Some row -> protocol_state cfg w ->
  exists w', loop_body cfg generate_signal uuid4 sym df i w = Some (tt, w') /\
             protocol_state cfg w'.
Proof.
  intros Hrow [Hpos Hcalls]. unfold loop_body. run_engine. rewrite Hrow.
  unfold protocol_state.
  set (c := simulated_bybit_client w) in *.
  destruct (String.eqb (generate_signal _) "BUY");
    [| destruct (String.eqb (generate_signal _) "SELL")].
  3: { eexists. split; [reflexivity |]. split; [exact Hpos | exact Hcalls]. }
  - destruct Hpos as [[Hs Hz] | [[Hs | Hs] Hz]].
    + rewrite Hs. string_tests. run_engine.
      rewrite (open_on_flat c _ "Buy" _ _ _ Hz). run_engine. cbn [success].
      eexists. split; [reflexivity |]. split.
      * right. split; [left; reflexivity | reflexivity].
      * calls_done Hcalls.
    + rewrite Hs. string_tests.
      eexists. split; [reflexivity |]. split; [| exact Hcalls].
      right. split; [left; exact Hs | exact Hz].
    + destruct (close_whole_position c (uuid4 (uuid_drawn w)) "Buy" (close row)
                  (Timestamp row) Hz (or_intror (conj Hs eq_refl)))
        as [S1 [Z1 _]].
      rewrite Hs. string_tests. run_engine. rewrite S1.
      rewrite (open_on_flat _ _ "Buy" _ _ _ Z1). run_engine. cbn [success].
      eexists. split; [reflexivity |]. split.
      * right. split; [left; reflexivity | reflexivity].
      * calls_done Hcalls. 
  - destruct Hpos as [[Hs Hz] | [[Hs | Hs] Hz]].
    + rewrite Hs. string_tests. run_engine.
      rewrite (open_on_flat c _ "Sell" _ _ _ Hz). run_engine. cbn [success].
      eexists. split; [reflexivity |]. split.
      * right. split; [right; reflexivity | reflexivity].
      * calls_done Hcalls.
    + destruct (close_whole_position c (uuid4 (uuid_drawn w)) "Sell" (close row)
                  (Timestamp row) Hz (or_introl (conj Hs eq_refl)))
        as [S1 [Z1 _]].
      rewrite Hs. string_tests. run_engine. rewrite S1.
      rewrite (open_on_flat _ _ "Sell" _ _ _ Z1). run_engine. cbn [success].
      eexists. split; [reflexivity |]. split.
      * right. split; [right; reflexivity | reflexivity].
      * calls_done Hcalls.
    + rewrite Hs. string_tests.
      eexists. split; [reflexivity |]. split; [| exact Hcalls].
      right. split; [right; exact Hs | exact Hz].
Qed.

Lemma terminal_protocol (w : World) :
  (df = [] -> w = started_world cfg sym) -> protocol_state cfg w ->
  exists w', terminal_liquidation uuid4 sym df w = Some (tt, w') /\
             side (current_position (simulated_bybit_client w')) = "None" /\
             size (current_position (simulated_bybit_client w')) = 0 /\
             all_calls_succeeded w'.
Proof.
  intros Hnil [Hpos Hcalls].
  destruct (iloc_last_nonempty df) as [Hdf | [row Hrow]].
  - rewrite (Hnil Hdf). exists (started_world cfg sym).
    split; [reflexivity |]. repeat split. constructor.
  - unfold terminal_liquidation. run_engine. rewrite Hrow.
    set (c := simulated_bybit_client w) in *.
    destruct Hpos as [[Hs Hz] | [[Hs | Hs] Hz]].
    + rewrite Hs. string_tests.
      eexists. split; [reflexivity |]. repeat split; assumption.
    + destruct (close_whole_position c (uuid4 (uuid_drawn w)) "Sell" (close row)
                  (Timestamp row) Hz (or_introl (conj Hs eq_refl)))
        as [S1 [Z1 N1]].
      rewrite Hs. string_tests. run_engine.
      eexists. split; [reflexivity |].
      split; [exact N1 |]. split; [exact Z1 |]. calls_done Hcalls.
    + destruct (close_whole_position c (uuid4 (uuid_drawn w)) "Buy" (close row)
                  (Timestamp row) Hz (or_intror (conj Hs eq_refl)))
        as [S1 [Z1 N1]].
      rewrite Hs. string_tests. run_engine.
      eexists. split; [reflexivity |].
      split; [exact N1 |]. split; [exact Z1 |]. calls_done Hcalls.
Qed.

Lemma run_protocol :
  exists w, run_backtest cfg generate_signal uuid4 sym df = Some w /\
            side (current_position (simulated_bybit_client w)) = "None" /\
            size (current_position (simulated_bybit_client w)) = 0 /\
            all_calls_succeeded w.
Proof.
  apply (backtest_run cfg generate_signal uuid4 sym df (fun _ => protocol_state cfg)).
  - split; [left; split; reflexivity | constructor].
  - intros i row w Hrow. exact (loop_body_protocol i row w Hrow).
  - intros w HI Hnil. exact (terminal_protocol w Hnil HI).
Qed.

End Engine_protocol.

(** C2, for a trade quantity above [epsilon].  Flat-at-end: whatever the
    series and the strategy, the run returns and, after the terminal
    liquidation, the position has side ["None"] and size 0. *)
Theorem flat_at_end :
  forall (cfg : Config) (generate_signal : DataFrame -> string)
         (uuid4 : nat -> string) (sym : string) (df : DataFrame),
    epsilon < TRADE_QUANTITY cfg ->
    exists w,
      run_backtest cfg generate_signal uuid4 sym df = Some w /\
      side (current_position (simulated_bybit_client w)) = "None" /\
      size (current_position (simulated_bybit_client w)) = 0.
Proof.
  intros cfg generate_signal uuid4 sym df Hq.
  destruct (run_protocol cfg generate_signal uuid4 sym df Hq)
    as [w [E [Hs [Hz _]]]].
  exists w. split; [exact E | split; assumption].
Qed.

(** The configuration of the repository ([TRADE_QUANTITY = 0.1]) on the
    four bars of the end-to-end scenario. *)
Lemma flat_at_end_witness :
  exists w,
    run_backtest config stub_strategy uuid_stub "ETHUSDT" four_bars = Some w /\
    side (current_position (simulated_bybit_client w)) = "None" /\
    size (current_position (simulated_bybit_client w)) = 0.
Proof.
  apply (flat_at_end config stub_strategy uuid_stub "ETHUSDT" four_bars).
  reflexivity.
Defined.

(** C2 as stated fails for a positive trade quantity below [epsilon]:
    with [TRADE_QUANTITY = 5e-10], one candle and a BUY signal, the
    terminal Sell is classified as an opening fill and the run ends
    Short, not flat. *)
Lemma flat_at_end_fails_for_dust_quantity :
  exists w,
    run_backtest dust_config (fun _ => "BUY") uuid_stub "BTCUSDT"
      [mkCandle 1 100] = Some w /\
    side (current_position (simulated_bybit_client w)) = "Short" /\
    size (current_position (simulated_bybit_client w)) = 1 # 2000000000 /\
    String.eqb (side (current_position (simulated_bybit_client w))) "None" = false.
Proof. eexists. split; [vm_compute; reflexivity |]. vm_compute. repeat split. Qed.

(** C8, at [TRADE_QUANTITY = 1e-9].  On the four bars of the end-to-end
    scenario (WAIT, WAIT, BUY, SELL) the engine issues four
    [execute_order] calls; the opening Buy succeeds and leaves a Long of
    size exactly [epsilon], and the three calls that follow (the close
    and the open of the reversal, and the terminal close) are rejected.
    The run ends Long. *)
Theorem engine_rejected_at_epsilon_quantity :
  exists w,
    run_backtest epsilon_config stub_strategy uuid_stub "BTCUSDT" four_bars
      = Some w /\
    map (fun c => (oc_side c, success (oc_result c))) (order_calls w) =
      [("Buy", true); ("Sell", false); ("Sell", false); ("Sell", false)] /\
    side (current_position (simulated_bybit_client w)) = "Long" /\
    size (current_position (simulated_bybit_client w)) = epsilon.
Proof. eexists. split; [vm_compute; reflexivity |]. vm_compute. repeat split. Qed.

(** Above [epsilon] the engine's protocol holds: no call is rejected. *)
Lemma engine_calls_succeed :
  forall (cfg : Config) (generate_signal : DataFrame -> string)
         (uuid4 : nat -> string) (sym : string) (df : DataFrame),
    epsilon < TRADE_QUANTITY cfg ->
    exists w,
      run_backtest cfg generate_signal uuid4 sym df = Some w /\
      Forall (fun c => success (oc_result c) = true) (order_calls w).
Proof.
  intros cfg generate_signal uuid4 sym df Hq.
  destruct (run_protocol cfg generate_signal uuid4 sym df Hq)
    as [w [E [_ [_ Hc]]]].
  exists w. split; [exact E | exact Hc].
Qed.

(** ** Reversals *)

(** What the two legs of a reversal do when the position is above
    [epsilon]: the first closes it all, the second opens the opposite
    position. *)
Lemma reversal_legs (c : SimulatedBybitClient) (u0 u1 sym os : string)
    (q p : Q) (ts : Z) :
  (side (current_position c) = "Short" /\ os = "Buy") \/
  (side (current_position c) = "Long" /\ os = "Sell") ->
  epsilon < size (current_position c) ->
  let r1 := execute_order c u0 sym os (size (current_position c)) p ts in
  let r2 := execute_order (snd r1) u1 sym os q p ts in
  classify (size (current_position c)) (side (current_position c)) os = Closing /\
  success (fst r1) = true /\
  side (current_position (snd r1)) = "None" /\
  size (current_position (snd r1)) = 0 /\
  classify (size (current_position (snd r1))) (side (current_position (snd r1))) os
    = Opening /\
  success (fst r2) = true /\
  size (current_position (snd r2)) = q /\
  side (current_position (snd r2)) = (if String.eqb os "Buy" then "Long" else "Short") /\
  entry_price (current_position (snd r2)) = p.
Proof.
  intros Hopp Hgt r1 r2.
  assert (Hc : classify (size (current_position c)) (side (current_position c)) os
               = Closing).
  { apply classify_Closing. split; [exact Hgt |]. tauto. }
  assert (Hflat := execute_order_full_close c u0 sym os p ts Hc). fold r1 in Hflat.
  assert (Hlt : size (current_position (snd r1)) < epsilon)
    by (rewrite Hflat; reflexivity).
  split; [exact Hc |].
  split; [subst r1; rewrite execute_order_success, Hc; reflexivity |].
  split; [rewrite Hflat; reflexivity |].
  split; [rewrite Hflat; reflexivity |].
  split; [apply classify_Opening; exact Hlt |].
  subst r2. rewrite (execute_order_opening (snd r1) u1 sym os q p ts Hlt).
  repeat split.
Qed.

(** C5. Reversal sequencing: on a BUY signal while Short, or a SELL
    signal while Long, the loop body issues exactly two [execute_order]
    calls, in this order: one for the whole size of the current position,
    then one for the configured trade quantity, both on the signal's side
    and at the closing price and timestamp of the current candle.  When
    the position is above [epsilon] the first is a closing fill that
    leaves the client flat and the second an opening fill. *)
Theorem reversal_sequencing :
  forall (cfg : Config) (generate_signal : DataFrame -> string)
         (uuid4 : nat -> string) (sym : string) (df : DataFrame)
         (i : nat) (row : Candle) (w : World) (order_side : string),
    iloc df i = Some row ->
    let c := simulated_bybit_client w in
    (generate_signal (iloc_slice df (i + 1)) = "BUY" /\
     side (current_position c) = "Short" /\ order_side = "Buy") \/
    (generate_signal (iloc_slice df (i + 1)) = "SELL" /\
     side (current_position c) = "Long" /\ order_side = "Sell") ->
    let r1 := execute_order c (uuid4 (uuid_drawn w)) sym order_side
                (size (current_position c)) (close row) (Timestamp row) in
    let r2 := execute_order (snd r1) (uuid4 (S (uuid_drawn w))) sym order_side
                (TRADE_QUANTITY cfg) (close row) (Timestamp row) in
    exists w',
      loop_body cfg generate_signal uuid4 sym df i w = Some (tt, w') /\
      order_calls w' =
        order_calls w ++
        [ {| oc_side := order_side;
             oc_quantity := size (current_position c);
             oc_price := close row; oc_timestamp := Timestamp row;
             oc_result := fst r1;
             oc_position_after := current_position (snd r1) |};
          {| oc_side := order_side;
             oc_quantity := TRADE_QUANTITY cfg;
             oc_price := close row; oc_timestamp := Timestamp row;
             oc_result := fst r2;
             oc_position_after := current_position (snd r2) |} ] /\
      simulated_bybit_client w' = snd r2 /\
      (epsilon < size (current_position c) ->
       classify (size (current_position c)) (side (current_position c))
         order_side = Closing /\
       success (fst r1) = true /\
       side (current_position (snd r1)) = "None" /\
       classify (size (current_position (snd r1)))
         (side (current_position (snd r1))) order_side = Opening /\
       success (fst r2) = true /\
       size (current_position (snd r2)) = TRADE_QUANTITY cfg /\
       side (current_position (snd r2)) =
         (if String.eqb order_side "Buy" then "Long" else "Short")).
Proof.
  intros cfg generate_signal uuid4 sym df i row w os Hrow c Hrev r1 r2.
  assert (Hlegs : epsilon < size (current_position c) ->
            classify (size (current_position c)) (side (current_position c)) os
              = Closing /\
            success (fst r1) = true /\
            side (current_position (snd r1)) = "None" /\
            classify (size (current_position (snd r1)))
              (side (current_position (snd r1))) os = Opening /\
            success (fst r2) = true /\
            size (current_position (snd r2)) = TRADE_QUANTITY cfg /\
            side (current_position (snd r2)) =
              (if String.eqb os "Buy" then "Long" else "Short")).
  { intro Hgt.
    destruct (reversal_legs c (uuid4 (uuid_drawn w)) (uuid4 (S (uuid_drawn w)))
                sym os (TRADE_QUANTITY cfg) (close row) (Timestamp row))
      as (H1 & H2 & H3 & _ & H5 & H6 & H7 & H8 & _); [tauto | exact Hgt |].
    repeat split; assumption. }
  unfold loop_body. run_engine. rewrite Hrow. fold c.
  destruct Hrev as [[Hsig [Hs Hos]] | [Hsig [Hs Hos]]];
    subst os; rewrite Hsig, Hs; string_tests; run_engine;
    fold c; fold r1; destruct (success (fst r1)); run_engine;
    fold r2; destruct (success (fst r2)); run_engine;
    (eexists; split; [reflexivity |]);
    cbn [order_calls simulated_bybit_client]; rewrite <- app_assoc;
    (split; [reflexivity | split; [reflexivity |]]);
    intro Hgt; specialize (Hlegs Hgt); rewrite Hs in Hlegs; exact Hlegs.
Qed.

(** A Short of 1 entered at 100, a candle closing at 120, a BUY signal. *)
Lemma reversal_sequencing_witness :
  exists w',
    loop_body scenario_config (fun _ => "BUY") uuid_stub "BTCUSDT"
      [mkCandle 4 120] 0 short_world = Some (tt, w') /\
    map (fun c => (oc_side c, oc_quantity c, oc_price c, oc_timestamp c,
                   success (oc_result c), side (oc_position_after c)))
      (order_calls w') =
      [("Buy", 1, 120, 4%Z, true, "None"); ("Buy", 1, 120, 4%Z, true, "Long")].
Proof.
  destruct (reversal_sequencing scenario_config (fun _ => "BUY") uuid_stub
              "BTCUSDT" [mkCandle 4 120] 0 (mkCandle 4 120) short_world "Buy"
              eq_refl (or_introl (conj eq_refl (conj eq_refl eq_refl))))
    as [w' [E [Hc _]]].
  exists w'. split; [exact E |]. rewrite Hc. reflexivity.
Defined.

(** ** The commission rate *)

(** [execute_order] never reads [self.commission_rate]. *)
Lemma execute_order_commission (r : Q) (self : SimulatedBybitClient)
    (uuid sym os : string) (q p : Q) (ts : Z) :
  execute_order (with_commission_rate r self) uuid sym os q p ts =
  (fst (execute_order self uuid sym os q p ts),
   with_commission_rate r (snd (execute_order self uuid sym os q p ts))).
Proof.
  unfold execute_order, with_commission_rate. cbn [current_position current_balance
    initial_capital commission_rate].
  destruct (classify _ _ _); reflexivity.
Qed.

Ltac commission_step :=
  run_engine; unfold world_with_commission_rate;
  cbn [simulated_bybit_client uuid_drawn trade_log strategy_calls order_calls];
  repeat (rewrite execute_order_commission; cbn [fst snd]);
  cbn [with_commission_rate current_position current_balance].

Section Commission.

Variables (s : string) (q cap r1 r2 : Q).
Variable generate_signal : DataFrame -> string.
Variable uuid4 : nat -> string.
Variable sym : string.
Variable df : DataFrame.

Local Abbreviation cfg1 := (mkConfig s q cap r1).
Local Abbreviation cfg2 := (mkConfig s q cap r2).

Lemma loop_body_commission (i : nat) (w : World) :
  loop_body cfg2 generate_signal uuid4 sym df i (world_with_commission_rate r2 w) =
  commission_lift r2 (loop_body cfg1 generate_signal uuid4 sym df i w).
Proof.
  unfold loop_body, commission_lift. cbn [TRADE_QUANTITY]. commission_step.
  destruct (iloc df i); [| reflexivity].
  repeat (commission_step;
          match goal with
          | |- context [if ?b then _ else _] => destruct b
          end);
    commission_step; reflexivity.
Qed.

Lemma for_each_commission (l : list nat) (w : World) :
  for_each l (loop_body cfg2 generate_signal uuid4 sym df)
    (world_with_commission_rate r2 w) =
  commission_lift r2
    (for_each l (loop_body cfg1 generate_signal uuid4 sym df) w).
Proof.
  revert w. induction l as [| i l IH]; intro w.
  - reflexivity.
  - simpl. unfold bind. rewrite loop_body_commission.
    destruct (loop_body cfg1 generate_signal uuid4 sym df i w) as [[[] w'] |].
    + simpl. apply IH.
    + reflexivity.
Qed.

Lemma terminal_commission (w : World) :
  terminal_liquidation uuid4 sym df (world_with_commission_rate r2 w) =
  commission_lift r2 (terminal_liquidation uuid4 sym df w).
Proof.
  unfold terminal_liquidation, commission_lift. commission_step.
  destruct (String.eqb (side (current_position (simulated_bybit_client w))) "None");
    cbn [negb]; [reflexivity |].
  destruct (iloc_last df); [| reflexivity].
  repeat (commission_step;
          match goal with
          | |- context [if ?b then _ else _] => destruct b
          end);
    commission_step; reflexivity.
Qed.

Lemma run_backtest_commission :
  run_backtest cfg2 generate_signal uuid4 sym df =
  option_map (world_with_commission_rate r2)
    (run_backtest cfg1 generate_signal uuid4 sym df).
Proof.
  unfold run_backtest, backtest, replay. run_engine.
  change (initial_world cfg2) with (world_with_commission_rate r2 (initial_world cfg1)).
  set (w0 := initial_world cfg1).
  change (mkWorld (simulated_bybit_client (world_with_commission_rate r2 w0))
            (uuid_drawn (world_with_commission_rate r2 w0)) 
            (trade_log (world_with_commission_rate r2 w0) ++
               [mkTrade sym "START_BACKTEST" "N/A" 0 0 0
                  (current_balance (simulated_bybit_client (world_with_commission_rate r2 w0)))
                  "N/A" "INITIALIZED"])
            (strategy_calls (world_with_commission_rate r2 w0))
            (order_calls (world_with_commission_rate r2 w0)))
    with (world_with_commission_rate r2
            (mkWorld (simulated_bybit_client w0) (uuid_drawn w0)
               (trade_log w0 ++
                  [mkTrade sym "START_BACKTEST" "N/A" 0 0 0
                     (current_balance (simulated_bybit_client w0))
                     "N/A" "INITIALIZED"])
               (strategy_calls w0) (order_calls w0))).
  rewrite for_each_commission.
  destruct (for_each _ _ _) as [[[] w1] |]; [| reflexivity].
  simpl. rewrite terminal_commission.
  destruct (terminal_liquidation uuid4 sym df w1) as [[[] w2] |]; reflexivity.
Qed.

End Commission.

(** C10. Commission-rate noninterference: [execute_order] returns the
    same result and leaves the same balance and position whatever the
    client's commission rate; and two runs that differ only in the
    configured commission rate both return, with the same trade log, the
    same [execute_order] calls (arguments, results and positions), the
    same final balance and the same final position. *)
Theorem commission_rate_noninterference :
  forall (s : string) (q cap r1 r2 : Q)
         (generate_signal : DataFrame -> string) (uuid4 : nat -> string)
         (sym : string) (df : DataFrame),
    (forall (self : SimulatedBybitClient) (uuid sy os : string) (qty p : Q) (ts : Z),
        let a := execute_order (with_commission_rate r1 self) uuid sy os qty p ts in
        let b := execute_order (with_commission_rate r2 self) uuid sy os qty p ts in
        fst a = fst b /\
        current_balance (snd a) = current_balance (snd b) /\
        current_position (snd a) = current_position (snd b)) /\
    exists w1 w2,
      run_backtest (mkConfig s q cap r1) generate_signal uuid4 sym df = Some w1 /\
      run_backtest (mkConfig s q cap r2) generate_signal uuid4 sym df = Some w2 /\
      trade_log w1 = trade_log w2 /\
      order_calls w1 = order_calls w2 /\
      current_balance (simulated_bybit_client w1) =
        current_balance (simulated_bybit_client w2) /\
      current_position (simulated_bybit_client w1) =
        current_position (simulated_bybit_client w2) /\
      current_balance (simulated_bybit_client w1) - cap ==
        current_balance (simulated_bybit_client w2) - cap.
Proof.
  intros s q cap r1 r2 generate_signal uuid4 sym df. split.
  - intros self uuid sy os qty p ts a b. subst a b.
    rewrite !execute_order_commission. cbn [fst snd]. repeat split.
  - destruct (run_strategy_calls (mkConfig s q cap r1) generate_signal uuid4 sym df)
      as [w1 [E1 _]].
    exists w1, (world_with_commission_rate r2 w1).
    split; [exact E1 |]. split.
    + rewrite (run_backtest_commission s q cap r1 r2), E1. reflexivity.
    + repeat split.
Qed.

(** ** Below [epsilon] every fill opens *)

Section Engine_dust.

Variable cfg : Config.
Variable generate_signal : DataFrame -> string.
Variable uuid4 : nat -> string.
Variable sym : string.
Variable df : DataFrame.
Hypothesis quantity_below_epsilon : TRADE_QUANTITY cfg < epsilon.

Ltac dust_step Hlt :=
  run_engine;
  cbn [current_position size success];
  first
    [ rewrite execute_order_opening
        by (cbn [current_position size];
            first [exact Hlt | exact quantity_below_epsilon])
    | match goal with
      | |- context [if ?b then _ else _] => destruct b
      end ].

Lemma loop_body_dust (i : nat) (row : Candle) (w : World) :
  iloc df i = Some row -> dust_state w ->
  exists w', loop_body cfg generate_signal uuid4 sym df i w = Some (tt, w') /\
             dust_state w'.
Proof.
  intros Hrow [Hlt Hcalls]. unfold loop_body. run_engine. rewrite Hrow.
  unfold dust_state.
  repeat dust_step Hlt;
    run_engine; (eexists; split; [reflexivity |]);
    (split; [cbn [simulated_bybit_client current_position size];
             first [exact Hlt | exact quantity_below_epsilon]
            | calls_done Hcalls]).
Qed.

Lemma terminal_dust (w : World) :
  (df = [] -> w = started_world cfg sym) -> dust_state w ->
  exists w', terminal_liquidation uuid4 sym df w = Some (tt, w') /\
             all_calls_succeeded w'.
Proof.
  intros Hnil [Hlt Hcalls].
  destruct (iloc_last_nonempty df) as [Hdf | [row Hrow]].
  - rewrite (Hnil Hdf). exists (started_world cfg sym).
    split; [reflexivity | constructor].
  - unfold terminal_liquidation. run_engine. rewrite Hrow.
    repeat dust_step Hlt;
      run_engine; (eexists; split; [reflexivity |]); calls_done Hcalls.
Qed.

Lemma run_dust :
  exists w, run_backtest cfg generate_signal uuid4 sym df = Some w /\
            all_calls_succeeded w.
Proof.
  apply (backtest_run cfg generate_signal uuid4 sym df (fun _ => dust_state)).
  - split; [reflexivity | constructor].
  - intros i row w Hrow. exact (loop_body_dust i row w Hrow).
  - intros w HI Hnil. exact (terminal_dust w Hnil HI).
Qed.

End Engine_dust.

(** Away from the boundary the engine's protocol holds: unless the
    trade quantity is exactly [epsilon], no call is rejected. *)
Lemma engine_calls_succeed_off_boundary :
  forall (cfg : Config) (generate_signal : DataFrame -> string)
         (uuid4 : nat -> string) (sym : string) (df : DataFrame),
    ~ TRADE_QUANTITY cfg == epsilon ->
    exists w,
      run_backtest cfg generate_signal uuid4 sym df = Some w /\
      Forall (fun c => success (oc_result c) = true) (order_calls w).
Proof.
  intros cfg generate_signal uuid4 sym df Hne.
  destruct (Q_dec (TRADE_QUANTITY cfg) epsilon) as [[Hlt | Hgt] | Heq].
  - exact (run_dust cfg generate_signal uuid4 sym df Hlt).
  - exact (engine_calls_succeed cfg generate_signal uuid4 sym df Hgt).
  - contradiction.
Qed.

(** ** The end-to-end scenario *)

(** Closes 100, 105, 95, 120 with signals WAIT, WAIT, BUY, SELL, trade
    quantity 1 and capital 1000: bar 3 opens Long 1 at 95, bar 4 closes
    it at 120 for +25 and opens Short 1 at 120, the terminal liquidation
    closes the Short at 120 for 0; the final balance is 1025. *)
Example end_to_end_scenario :
  exists w,
    run_backtest scenario_config stub_strategy uuid_stub "BTCUSDT" four_bars
      = Some w /\
    map (fun t => (tr_action t, tr_side t, tr_quantity t, tr_price t, tr_pnl t,
                   tr_balance_after_trade t, tr_status t)) (trade_log w) =
      [ ("START_BACKTEST", "N/A", 0, 0, 0, 1000, "INITIALIZED");
        ("OPEN_POSITION", "Buy", 1, 95, 0, 1000, "EXECUTED_LONG");
        ("CLOSE_POSITION", "Sell", 1, 120, 25, 1025, "CLOSED_LONG");
        ("OPEN_POSITION", "Sell", 1, 120, 0, 1025, "EXECUTED_SHORT");
        ("CLOSE_POSITION", "Buy", 1, 120, 0, 1025, "CLOSED_AT_END") ] /\
    current_balance (simulated_bybit_client w) = 1025 /\
    side (current_position (simulated_bybit_client w)) = "None".
Proof. eexists. split; [vm_compute; reflexivity |]. vm_compute. repeat split. Qed.

(** A signal other than BUY and SELL (HOLD, WAIT) changes neither the
    client nor the trade log, and issues no order. *)
Lemma hold_is_noop :
  forall (cfg : Config) (generate_signal : DataFrame -> string)
         (uuid4 : nat -> string) (sym : string) (df : DataFrame)
         (i : nat) (row : Candle) (w : World),
    iloc df i = Some row ->
    generate_signal (iloc_slice df (i + 1)) <> "BUY" ->
    generate_signal (iloc_slice df (i + 1)) <> "SELL" ->
    exists w',
      loop_body cfg generate_signal uuid4 sym df i w = Some (tt, w') /\
      simulated_bybit_client w' = simulated_bybit_client w /\
      trade_log w' = trade_log w /\
      order_calls w' = order_calls w.
Proof.
  intros cfg generate_signal uuid4 sym df i row w Hrow Hb Hs.
  apply String.eqb_neq in Hb. apply String.eqb_neq in Hs.
  unfold loop_body. run_engine. rewrite Hrow, Hb, Hs.
  eexists. split; [reflexivity |]. repeat split.
Qed.

(** * Further properties of the code *)

(** ** [SimulatedBybitClient] under arbitrary calls *)

Lemma execute_order_closing (self : SimulatedBybitClient)
    (uuid sym os : string) (q p : Q) (ts : Z) :
  classify (size (current_position self)) (side (current_position self)) os
    = Closing ->
  let pos := current_position self in
  let close_amount := py_min q (size pos) in
  let pnl_on_this_trade :=
    if String.eqb (side pos) "Long"
    then (p - entry_price pos) * close_amount
    else (entry_price pos - p) * close_amount in
  execute_order self uuid sym os q p ts =
  ({| success := true; order_id := uuid; pnl := pnl_on_this_trade;
      balance_after_trade := current_balance self + pnl_on_this_trade |},
   {| current_balance := current_balance self + pnl_on_this_trade;
      initial_capital := initial_capital self;
      commission_rate := commission_rate self;
      current_position :=
        if Qle_bool (size pos - close_amount) epsilon
        then {| symbol := symbol pos; size := 0; side := "None";
                entry_price := 0 |}
        else {| symbol := symbol pos; size := size pos - close_amount;
                side := side pos; entry_price := entry_price pos |} |}).
Proof. intro H. unfold execute_order. rewrite H. reflexivity. Qed.

(** No single fill reverses a position.  On a position above [epsilon],
    whatever the order (side, quantity, price), the call leaves the side
    as it was or leaves the client flat with size 0: an oversized
    closing order closes the position and opens nothing. *)
Theorem single_fill_never_reverses :
  forall (self : SimulatedBybitClient) (uuid sym order_side : string)
         (quantity price : Q) (timestamp : Z),
    epsilon < size (current_position self) ->
    let self' :=
      snd (execute_order self uuid sym order_side quantity price timestamp) in
    side (current_position self') = side (current_position self) \/
    (side (current_position self') = "None" /\
     size (current_position self') = 0).
Proof.
  intros self uuid sym os q p ts Hgt self'. subst self'.
  destruct (classify (size (current_position self))
              (side (current_position self)) os) eqn:E.
  - rewrite (execute_order_closing self uuid sym os q p ts E).
    cbn [snd current_position]. destruct (Qle_bool _ epsilon).
    + right. split; reflexivity.
    + left. reflexivity.
  - apply classify_Opening in E. lra.
  - unfold execute_order. rewrite E. left. reflexivity.
  - unfold execute_order. rewrite E. left. reflexivity.
Qed.

(** A Long of 2 that receives a Sell of 5: the client ends flat. *)
Lemma single_fill_never_reverses_witness :
  let self := mkClient 1000 1000 0 (mkPosition (Some "BTCUSDT") 2 "Long" 100) in
  let self' := snd (execute_order self "id" "BTCUSDT" "Sell" 5 110 0) in
  side (current_position self') = "Long" \/
  (side (current_position self') = "None" /\ size (current_position self') = 0).
Proof.
  intros self self'.
  exact (single_fill_never_reverses self "id" "BTCUSDT" "Sell" 5 110 0%Z eq_refl).
Defined.

Lemma submit_well_formed (self : SimulatedBybitClient) (o : Order) :
  documented_order o ->
  well_formed_position (current_position self) ->
  well_formed_position (current_position (snd (submit self o))).
Proof.
  intros [Hside Hq] Hwf. unfold submit.
  destruct (classify (size (current_position self))
              (side (current_position self)) (o_side o)) eqn:E.
  - rewrite (execute_order_closing self _ _ _ _ _ _ E).
    cbn [snd current_position].
    destruct (Qle_bool _ epsilon) eqn:El.
    + left. repeat split.
    + apply Qle_bool_gt in El. right. cbn [side size]. split; [| exact El].
      apply classify_Closing in E. destruct E as [_ [[H _] | [H _]]]; auto.
  - pose proof (proj1 (classify_Opening _ _ _) E) as Hlt.
    rewrite (execute_order_opening self _ _ _ _ _ _ Hlt).
    cbn [snd current_position]. right. cbn [side size]. split; [| exact Hq].
    destruct (String.eqb (o_side o) "Buy"); auto.
  - apply classify_Extending in E. destruct E as [_ E].
    destruct Hwf as [[Hs _] | [[Hs | Hs] _]], Hside as [Ho | Ho];
      rewrite Hs, Ho in E; discriminate E.
  - unfold execute_order. rewrite E. exact Hwf.
Qed.

(** The position invariant.  From a new client, after any sequence of
    orders with side Buy or Sell and quantity above [epsilon], the
    position is flat with size 0 and entry price 0, or Long or Short
    with a size above [epsilon]. *)
Theorem position_invariant :
  forall (capital rate : Q) (orders : list Order),
    Forall documented_order orders ->
    well_formed_position
      (current_position (snd (submit_all (init capital rate) orders))).
Proof.
  intros capital rate orders.
  assert (G : forall self, well_formed_position (current_position self) ->
            Forall documented_order orders ->
            well_formed_position (current_position (snd (submit_all self orders)))).
  { induction orders as [| o rest IH]; intros self Hwf Hall.
    - exact Hwf.
    - inversion Hall as [| ? ? Ho Hrest]; subst. simpl.
      apply IH; [apply submit_well_formed; assumption | exact Hrest]. }
  apply G. left. repeat split.
Qed.

(** Buy 2, Sell 1 (a partial close), Sell 3 (an oversized close), Sell 1. *)
Lemma position_invariant_witness :
  well_formed_position
    (current_position
       (snd (submit_all (init 1000 0)
               [ mkOrder "a" "BTCUSDT" "Buy" 2 100 0;
                 mkOrder "b" "BTCUSDT" "Sell" 1 110 1;
                 mkOrder "c" "BTCUSDT" "Sell" 3 120 2;
                 mkOrder "d" "BTCUSDT" "Sell" 1 90 3 ]))).
Proof.
  apply position_invariant.
  repeat (constructor; [split; [auto | reflexivity] |]). constructor.
Defined.

Lemma last_balance_cons (before : Q) (r : OrderResult) (rs : list OrderResult) :
  last_balance before (r :: rs) = last_balance (balance_after_trade r) rs.
Proof. unfold last_balance. cbn [map]. apply last_cons_default. Qed.

(** The balance of the client, call by call.  In any sequence of orders
    every result accounts for the balance the call found: its
    [balance_after_trade] is that balance plus its [pnl] (the addition of
    the closing branch), or its [pnl] is 0 and the balance is unchanged.
    The balance the sequence leaves is the last [balance_after_trade];
    the initial capital and the commission rate recorded at construction
    are never written; there is one result per call. *)
Theorem client_balance_ledger :
  forall (self : SimulatedBybitClient) (orders : list Order),
    let r := submit_all self orders in
    results_ledger (current_balance self) (fst r) /\
    current_balance (snd r) = last_balance (current_balance self) (fst r) /\
    initial_capital (snd r) = initial_capital self /\
    commission_rate (snd r) = commission_rate self /\
    List.length (fst r) = List.length orders.
Proof.
  intros self orders. revert self.
  induction orders as [| o rest IH]; intro self; cbv zeta.
  - simpl. repeat split.
  - cbn [submit_all fst snd]. specialize (IH (snd (submit self o))). cbv zeta in IH.
    destruct IH as (Hr & Hb & Hi & Hc & Hl).
    destruct (execute_order_accounts self (o_uuid o) (o_symbol o) (o_side o)
                (o_quantity o) (o_price o) (o_timestamp o)) as [A B].
    fold (submit self o) in A, B.
    assert (F : initial_capital (snd (submit self o)) = initial_capital self /\
                commission_rate (snd (submit self o)) = commission_rate self).
    { unfold submit, execute_order. destruct (classify _ _ _); split; reflexivity. }
    destruct F as [Fi Fc].
    rewrite last_balance_cons. rewrite B in Hr, Hb.
    split; [split; [exact A | exact Hr] |].
    split; [exact Hb |].
    split; [congruence |]. split; [congruence |].
    cbn [List.length]. f_equal. exact Hl.
Qed.

(** Round trip.  On a client with no position (size below [epsilon]),
    an opening order of a quantity above [epsilon] followed by the
    opposite order of the same quantity both succeed, leave the client
    flat, and move the balance by the price difference times the
    quantity, signed by the side: [(p1 - p0) * q] after a Buy,
    [(p0 - p1) * q] after a Sell.  At an unchanged price the balance is
    unchanged: the simulator charges nothing for a trade. *)
Theorem open_close_round_trip :
  forall (self : SimulatedBybitClient) (u0 u1 sym order_side opposite : string)
         (q p0 p1 : Q) (ts0 ts1 : Z),
    size (current_position self) < epsilon ->
    epsilon < q ->
    (order_side = "Buy" /\ opposite = "Sell") \/
    (order_side = "Sell" /\ opposite = "Buy") ->
    let r0 := execute_order self u0 sym order_side q p0 ts0 in
    let r1 := execute_order (snd r0) u1 sym opposite q p1 ts1 in
    success (fst r0) = true /\
    success (fst r1) = true /\
    pnl (fst r1) ==
      (if String.eqb order_side "Buy" then (p1 - p0) * q else (p0 - p1) * q) /\
    current_balance (snd r1) == current_balance self + pnl (fst r1) /\
    side (current_position (snd r1)) = "None" /\
    size (current_position (snd r1)) = 0 /\
    (p1 == p0 -> current_balance (snd r1) == current_balance self).
Proof.
  intros self u0 u1 sym os opp q p0 p1 ts0 ts1 Hflat Hq Hsides r0 r1.
  subst r1 r0. rewrite (execute_order_opening self u0 sym os q p0 ts0 Hflat).
  cbn [fst snd success].
  set (c := mkClient _ _ _ _).
  assert (Hc : classify (size (current_position c)) (side (current_position c)) opp
               = Closing).
  { apply classify_Closing. split; [exact Hq |].
    destruct Hsides as [[-> ->] | [-> ->]]; [left | right]; split; reflexivity. }
  rewrite (execute_order_closing c u1 sym opp q p1 ts1 Hc).
  cbv zeta. subst c. cbn [fst snd success pnl current_balance current_position
    size side entry_price].
  rewrite py_min_same.
  assert (El : Qle_bool (q - q) epsilon = true)
    by (apply Qle_bool_iff; unfold epsilon; lra).
  rewrite El. cbn [side size].
  assert (Hpnl : (if String.eqb (if String.eqb os "Buy" then "Long" else "Short") "Long"
                  then (p1 - p0) * q else (p0 - p1) * q) ==
                 (if String.eqb os "Buy" then (p1 - p0) * q else (p0 - p1) * q)).
  { destruct Hsides as [[-> ->] | [-> ->]]; reflexivity. }
  split; [reflexivity |]. split; [reflexivity |].
  split; [exact Hpnl |]. split; [reflexivity |].
  split; [reflexivity |]. split; [reflexivity |].
  intro Hp. rewrite Hpnl. destruct (String.eqb os "Buy"); rewrite Hp; lra.
Qed.

(** The configured quantity 0.1 bought at 100 and sold at 110. *)
Lemma open_close_round_trip_witness :
  let r0 := execute_order (init 10000 0) "a" "BTCUSDT" "Buy" (1 # 10) 100 0 in
  let r1 := execute_order (snd r0) "b" "BTCUSDT" "Sell" (1 # 10) 110 1 in
  pnl (fst r1) == 1 /\ side (current_position (snd r1)) = "None".
Proof.
  intros r0 r1.
  destruct (open_close_round_trip (init 10000 0) "a" "b" "BTCUSDT" "Buy" "Sell"
              (1 # 10) 100 110 0%Z 1%Z eq_refl eq_refl
              (or_introl (conj eq_refl eq_refl)))
    as (_ & _ & Hp & _ & Hs & _).
  split; [| exact Hs]. fold r0 r1 in Hp. rewrite Hp. reflexivity.
Defined.

(** ** The replay loop, candle by candle *)

Lemma for_each_ext (body1 body2 : nat -> M unit) (l : list nat) (w : World) :
  (forall i w0, In i l -> body1 i w0 = body2 i w0) ->
  for_each l body1 w = for_each l body2 w.
Proof.
  revert w. induction l as [| i l IH]; intros w H; [reflexivity |].
  simpl. unfold bind. rewrite (H i w (or_introl eq_refl)).
  destruct (body2 i w) as [[[] w'] |]; [| reflexivity].
  apply IH. intros j w0 Hj. apply H. right. exact Hj.
Qed.

Lemma for_each_app (body : nat -> M unit) (l1 l2 : list nat) (w : World) :
  for_each (l1 ++ l2) body w =
  match for_each l1 body w with
  | Some (_, w') => for_each l2 body w'
  | None => None
  end.
Proof.
  revert w. induction l1 as [| i l1 IH]; intro w; [reflexivity |].
  simpl. unfold bind. destruct (body i w) as [[[] w'] |]; [apply IH | reflexivity].
Qed.

Lemma extends_refl (w : World) : extends w w.
Proof. split; exists []; rewrite app_nil_r; reflexivity. Qed.

Lemma extends_trans (w1 w2 w3 : World) :
  extends w1 w2 -> extends w2 w3 -> extends w1 w3.
Proof.
  intros [[c1 H1] [r1 G1]] [[c2 H2] [r2 G2]]. split.
  - exists (c1 ++ c2). rewrite H2, H1, app_assoc. reflexivity.
  - exists (r1 ++ r2). rewrite G2, G1, app_assoc. reflexivity.
Qed.

Section Replay.

Variable cfg : Config.
Variable generate_signal : DataFrame -> string.
Variable uuid4 : nat -> string.
Variable sym : string.

Lemma loop_body_extends (df : DataFrame) (i : nat) (row : Candle) (w : World) :
  iloc df i = Some row ->
  exists w', loop_body cfg generate_signal uuid4 sym df i w = Some (tt, w') /\
             extends w w'.
Proof.
  intro Hrow. unfold loop_body. run_engine. rewrite Hrow.
  split_ifs; run_engine; (eexists; split; [reflexivity |]);
    (split; cbn [order_calls trade_log]; rewrite <- ?app_assoc;
     first [ eexists; reflexivity | exists []; rewrite app_nil_r; reflexivity ]).
Qed.

Lemma loop_body_firstn (df : DataFrame) (k i : nat) (w : World) :
  (i < k)%nat ->
  loop_body cfg generate_signal uuid4 sym (firstn k df) i w =
  loop_body cfg generate_signal uuid4 sym df i w.
Proof.
  intro Hi. unfold loop_body, iloc, iloc_slice.
  rewrite nth_error_firstn.
  destruct (Nat.ltb_spec i k) as [_ | H]; [| lia].
  rewrite firstn_firstn. replace (Nat.min (i + 1) k) with (i + 1)%nat by lia.
  reflexivity.
Qed.

Lemma for_each_total (df : DataFrame) (len start : nat) (w : World) :
  (start + len <= List.length df)%nat ->
  exists w', for_each (seq start len)
               (loop_body cfg generate_signal uuid4 sym df) w = Some (tt, w') /\
             extends w w'.
Proof.
  intro Hlen.
  destruct (for_each_invariant (fun _ w' => extends w w')
              (loop_body cfg generate_signal uuid4 sym df) len start w)
    as [w' [E H]].
  - apply extends_refl.
  - intros i w0 Hi Hext.
    destruct (iloc_in_range df i) as [row Hrow]; [lia |].
    destruct (loop_body_extends df i row w0 Hrow) as [w1 [E1 H1]].
    exists w1. split; [exact E1 | exact (extends_trans _ _ _ Hext H1)].
  - exists w'. split; assumption.
Qed.

End Replay.

(** Fills do not look ahead.  The loop run on the first [k] candles
    ends in the state the loop on the whole series is in after [k]
    candles: the [execute_order] calls and the log rows of the whole run
    start with those of the run on the prefix, whatever the later
    candles are. *)
Theorem fills_do_not_look_ahead :
  forall (cfg : Config) (generate_signal : DataFrame -> string)
         (uuid4 : nat -> string) (sym : string) (df : DataFrame)
         (k : nat) (w0 : World),
  exists wk w,
    replay cfg generate_signal uuid4 sym (firstn k df) w0 = Some (tt, wk) /\
    replay cfg generate_signal uuid4 sym df w0 = Some (tt, w) /\
    (exists calls, order_calls w = order_calls wk ++ calls) /\
    (exists rows, trade_log w = trade_log wk ++ rows).
Proof.
  intros cfg generate_signal uuid4 sym df k w0.
  set (n := Nat.min k (List.length df)).
  destruct (for_each_total cfg generate_signal uuid4 sym df n 0 w0) as [wk [Ek _]];
    [subst n; lia |].
  destruct (for_each_total cfg generate_signal uuid4 sym df
              (List.length df - n) n wk) as [w [E Hext]]; [subst n; lia |].
  exists wk, w. split; [| split; [| exact Hext]].
  - unfold replay. rewrite length_firstn. fold n.
    rewrite (for_each_ext _ (loop_body cfg generate_signal uuid4 sym df)); [exact Ek |].
    intros i w1 Hi. apply in_seq in Hi. apply loop_body_firstn. subst n. lia.
  - unfold replay.
    replace (List.length df) with (n + (List.length df - n))%nat at 1
      by (subst n; lia).
    rewrite seq_app, for_each_app, Ek. exact E.
Qed.

(** *** The strategy's inputs, step by step *)

(** Step [i] takes from the strategy its answer on [candles[0..i]] and
    nothing else. *)
Lemma loop_body_signal (cfg : Config) (generate_signal : DataFrame -> string)
    (uuid4 : nat -> string) (sym : string) (df : DataFrame) (i : nat) (w : World) :
  loop_body cfg generate_signal uuid4 sym df i w =
  loop_body cfg (fun _ => generate_signal (firstn (i + 1) df)) uuid4 sym df i w.
Proof. reflexivity. Qed.

(** Step [i] reads the series up to candle [i] and nothing else. *)
Lemma loop_body_prefix (cfg : Config) (generate_signal : DataFrame -> string)
    (uuid4 : nat -> string) (sym : string) (df df' : DataFrame) (i : nat)
    (w : World) :
  firstn (i + 1) df' = firstn (i + 1) df ->
  loop_body cfg generate_signal uuid4 sym df' i w =
  loop_body cfg generate_signal uuid4 sym df i w.
Proof.
  intro H. unfold loop_body, iloc, iloc_slice. rewrite H.
  assert (E : nth_error df' i = nth_error df i).
  { assert (P : forall d : DataFrame,
               nth_error d i = nth_error (firstn (i + 1) d) i).
    { intro d. rewrite nth_error_firstn.
      destruct (Nat.ltb_spec i (i + 1)); [reflexivity | lia]. }
    rewrite (P df'), (P df), H. reflexivity. }
  rewrite E. reflexivity.
Qed.

(** The loop over the first [k] candles depends on the strategy through
    its answers on the [k] prefixes only. *)
Lemma for_each_signals (cfg : Config) (generate_signal other : DataFrame -> string)
    (uuid4 : nat -> string) (sym : string) (df : DataFrame) (k : nat) (w : World) :
  (forall i, (i < k)%nat ->
     other (firstn (i + 1) df) = generate_signal (firstn (i + 1) df)) ->
  for_each (seq 0 k) (loop_body cfg other uuid4 sym df) w =
  for_each (seq 0 k) (loop_body cfg generate_signal uuid4 sym df) w.
Proof.
  intro H. apply for_each_ext. intros i w0 Hi. apply in_seq in Hi.
  rewrite (loop_body_signal cfg other), (loop_body_signal cfg generate_signal).
  rewrite H by lia. reflexivity.
Qed.

(** A BUY on a client whose side is ["None"] issues one order: Buy, the
    configured quantity, at the close of the candle. *)
Lemma buy_on_flat (cfg : Config) (generate_signal : DataFrame -> string)
    (uuid4 : nat -> string) (sym : string) (df : DataFrame) (i : nat)
    (row : Candle) (w : World) :
  iloc df i = Some row ->
  side (current_position (simulated_bybit_client w)) = "None" ->
  generate_signal (firstn (i + 1) df) = "BUY" ->
  exists w' result position,
    loop_body cfg generate_signal uuid4 sym df i w = Some (tt, w') /\
    order_calls w' =
      order_calls w ++
      [{| oc_side := "Buy"; oc_quantity := TRADE_QUANTITY cfg;
          oc_price := close row; oc_timestamp := Timestamp row;
          oc_result := result; oc_position_after := position |}].
Proof.
  intros Hrow Hside Hsig. unfold loop_body, iloc_slice. run_engine.
  rewrite Hrow, Hsig, Hside. string_tests. run_engine.
  destruct (success _); run_engine; do 3 eexists; split; reflexivity.
Qed.

(** C1. Causality of the replay loop: at step [i] the strategy is
    invoked on the slice [candles[0..i]] and on nothing else.
    - A run returns and makes one strategy invocation per candle; the
      invocation of step [i] receives [candles[0..i]]: length [i+1],
      equal to the series on every index up to [i], no candle of index
      [i+1] or later.
    - Step [i] takes from the strategy its answer on [candles[0..i]]
      only: it is the step of the strategy that answers
      [generate_signal (candles[0..i])] whatever it is given.
    - Step [i] is the same on any series with the same candles up to
      [i]: the candles after [i] are not read.
    - The first [k] steps, and the whole run, are the same for two
      strategies that give the same answers on the prefixes concerned,
      whatever they answer on any other series.
    - The answer is acted on: BUY on a client whose side is ["None"]
      issues a Buy of the configured quantity at the close of candle [i];
      an answer other than BUY and SELL issues no order and changes
      neither the client nor the log. *)
Theorem causality :
  forall (cfg : Config) (generate_signal : DataFrame -> string)
         (uuid4 : nat -> string) (sym : string) (df : DataFrame),
    (exists w,
       run_backtest cfg generate_signal uuid4 sym df = Some w /\
       List.length (strategy_calls w) = List.length df /\
       forall i, (i < List.length df)%nat ->
         exists prefix,
           nth_error (strategy_calls w) i = Some prefix /\
           prefix = firstn (i + 1) df /\
           List.length prefix = (i + 1)%nat /\
           (forall j, (j <= i)%nat -> nth_error prefix j = nth_error df j) /\
           (forall j, (i < j)%nat -> nth_error prefix j = None)) /\
    (forall (i : nat) (w : World),
       loop_body cfg generate_signal uuid4 sym df i w =
       loop_body cfg (fun _ => generate_signal (firstn (i + 1) df))
         uuid4 sym df i w) /\
    (forall (df' : DataFrame) (i : nat) (w : World),
       firstn (i + 1) df' = firstn (i + 1) df ->
       loop_body cfg generate_signal uuid4 sym df' i w =
       loop_body cfg generate_signal uuid4 sym df i w) /\
    (forall (other : DataFrame -> string) (k : nat) (w : World),
       (forall i, (i < k)%nat ->
          other (firstn (i + 1) df) = generate_signal (firstn (i + 1) df)) ->
       for_each (seq 0 k) (loop_body cfg other uuid4 sym df) w =
       for_each (seq 0 k) (loop_body cfg generate_signal uuid4 sym df) w) /\
    (forall other : DataFrame -> string,
       (forall i, (i < List.length df)%nat ->
          other (firstn (i + 1) df) = generate_signal (firstn (i + 1) df)) ->
       run_backtest cfg other uuid4 sym df =
       run_backtest cfg generate_signal uuid4 sym df) /\
    (forall (i : nat) (row : Candle) (w : World),
       iloc df i = Some row ->
       side (current_position (simulated_bybit_client w)) = "None" ->
       generate_signal (firstn (i + 1) df) = "BUY" ->
       exists w' result position,
         loop_body cfg generate_signal uuid4 sym df i w = Some (tt, w') /\
         order_calls w' =
           order_calls w ++
           [{| oc_side := "Buy"; oc_quantity := TRADE_QUANTITY cfg;
               oc_price := close row; oc_timestamp := Timestamp row;
               oc_result := result; oc_position_after := position |}]) /\
    (forall (i : nat) (row : Candle) (w : World),
       iloc df i = Some row ->
       generate_signal (firstn (i + 1) df) <> "BUY" ->
       generate_signal (firstn (i + 1) df) <> "SELL" ->
       exists w',
         loop_body cfg generate_signal uuid4 sym df i w = Some (tt, w') /\
         simulated_bybit_client w' = simulated_bybit_client w /\
         trade_log w' = trade_log w /\
         order_calls w' = order_calls w).
Proof.
  intros cfg generate_signal uuid4 sym df.
  split; [| split; [| split; [| split; [| split; [| split]]]]].
  - destruct (run_strategy_calls cfg generate_signal uuid4 sym df) as [w [E Hs]].
    exists w. split; [exact E |]. split.
    + rewrite Hs, length_map, length_seq. reflexivity.
    + intros i Hi. exists (firstn (i + 1) df).
      assert (Hlen : List.length (firstn (i + 1) df) = (i + 1)%nat)
        by (rewrite length_firstn; lia).
      split; [| split; [reflexivity | split; [exact Hlen | split]]].
      * rewrite Hs.
        rewrite (nth_error_map (fun i0 => iloc_slice df (i0 + 1)) i
                   (seq 0 (List.length df))).
        rewrite nth_error_seq.
        destruct (Nat.ltb i (List.length df)) eqn:El.
        -- reflexivity.
        -- apply Nat.ltb_ge in El. lia.
      * intros j Hj. rewrite nth_error_firstn.
        destruct (Nat.ltb_spec j (i + 1)); [reflexivity | lia].
      * intros j Hj. apply nth_error_None. lia.
  - intros i w. apply loop_body_signal.
  - intros df' i w H. apply loop_body_prefix. exact H.
  - intros other k w H. apply for_each_signals. exact H.
  - intros other H. unfold run_backtest, backtest, replay. run_engine.
    rewrite (for_each_signals cfg generate_signal other uuid4 sym df
               (List.length df) _ H).
    reflexivity.
  - intros i row w Hrow Hside Hsig.
    exact (buy_on_flat cfg generate_signal uuid4 sym df i row w Hrow Hside Hsig).
  - intros i row w Hrow Hb Hs.
    exact (hold_is_noop cfg generate_signal uuid4 sym df i row w Hrow Hb Hs).
Qed.

(** The third candle of the end-to-end scenario: the strategy answers
    BUY on the first three candles, the client is flat, and the step
    issues one Buy of 1 at 95. *)
Lemma causality_witness :
  exists w',
    loop_body scenario_config stub_strategy uuid_stub "BTCUSDT" four_bars 2
      (started_world scenario_config "BTCUSDT") = Some (tt, w') /\
    map (fun c => (oc_side c, oc_quantity c, oc_price c)) (order_calls w') =
      [("Buy", 1, 95)].
Proof.
  destruct (causality scenario_config stub_strategy uuid_stub "BTCUSDT" four_bars)
    as (_ & _ & _ & _ & _ & Hbuy & _).
  destruct (Hbuy 2%nat (mkCandle 3 95) (started_world scenario_config "BTCUSDT")
              eq_refl eq_refl eq_refl) as (w' & result & position & E & Hc).
  exists w'. split; [exact E |]. rewrite Hc. reflexivity.
Defined.

(** ** Whole runs *)

Section Runs.

Variable cfg : Config.
Variable generate_signal : DataFrame -> string.
Variable uuid4 : nat -> string.
Variable sym : string.
Variable df : DataFrame.

(** *** A strategy that never trades *)

Hypothesis never_trades :
  forall d, generate_signal d <> "BUY" /\ generate_signal d <> "SELL".

Lemma run_without_signal :
  exists w,
    run_backtest cfg generate_signal uuid4 sym df = Some w /\
    simulated_bybit_client w =
      init (BACKTEST_INITIAL_CAPITAL cfg) (BACKTEST_COMMISSION_RATE cfg) /\
    trade_log w = [start_record cfg sym] /\
    order_calls w = [].
Proof.
  apply (backtest_run cfg generate_signal uuid4 sym df
           (fun _ w =>
              simulated_bybit_client w =
                init (BACKTEST_INITIAL_CAPITAL cfg) (BACKTEST_COMMISSION_RATE cfg) /\
              trade_log w = [start_record cfg sym] /\
              order_calls w = [])).
  - repeat split.
  - intros i row w Hrow (Hc & Hl & Ho).
    destruct (never_trades (iloc_slice df (i + 1))) as [Hb Hs].
    destruct (hold_is_noop cfg generate_signal uuid4 sym df i row w Hrow Hb Hs)
      as (w' & E & Hc' & Hl' & Ho').
    exists w'. split; [exact E |]. repeat split; congruence.
  - intros w (Hc & Hl & Ho) _.
    exists w. split; [| repeat split; assumption].
    unfold terminal_liquidation. run_engine. rewrite Hc. reflexivity.
Qed.

End Runs.

(** A strategy that never answers BUY or SELL never trades: the run
    issues no [execute_order] call, writes only the START_BACKTEST row,
    and ends with the client as it was constructed, so the final balance
    is the initial capital. *)
Theorem no_signal_no_trade :
  forall (cfg : Config) (generate_signal : DataFrame -> string)
         (uuid4 : nat -> string) (sym : string) (df : DataFrame),
    (forall d, generate_signal d <> "BUY" /\ generate_signal d <> "SELL") ->
    exists w,
      run_backtest cfg generate_signal uuid4 sym df = Some w /\
      order_calls w = [] /\
      trade_log w = [start_record cfg sym] /\
      simulated_bybit_client w =
        init (BACKTEST_INITIAL_CAPITAL cfg) (BACKTEST_COMMISSION_RATE cfg) /\
      current_balance (simulated_bybit_client w) = BACKTEST_INITIAL_CAPITAL cfg.
Proof.
  intros cfg generate_signal uuid4 sym df H.
  destruct (run_without_signal cfg generate_signal uuid4 sym df H)
    as (w & E & Hc & Hl & Ho).
  exists w. repeat split; try assumption. rewrite Hc. reflexivity.
Qed.

(** A strategy that always answers HOLD, on the four bars. *)
Lemma no_signal_no_trade_witness :
  exists w,
    run_backtest config (fun _ => "HOLD") uuid_stub "ETHUSDT" four_bars = Some w /\
    order_calls w = [] /\
    current_balance (simulated_bybit_client w) = 10000.
Proof.
  destruct (no_signal_no_trade config (fun _ => "HOLD") uuid_stub "ETHUSDT"
              four_bars)
    as (w & E & Ho & _ & _ & Hb).
  - intro d. split; discriminate.
  - exists w. split; [exact E |]. split; [exact Ho | exact Hb].
Defined.

(** *** How many orders a run issues *)

Lemma loop_body_counts (cfg : Config) (generate_signal : DataFrame -> string)
    (uuid4 : nat -> string) (sym : string) (df : DataFrame)
    (i : nat) (row : Candle) (w : World) :
  iloc df i = Some row ->
  exists w', loop_body cfg generate_signal uuid4 sym df i w = Some (tt, w') /\
    (uuid_drawn w' - uuid_drawn w = List.length (order_calls w') - List.length (order_calls w))%nat /\
    (uuid_drawn w <= uuid_drawn w')%nat /\
    (List.length (order_calls w) <= List.length (order_calls w'))%nat /\
    (List.length (order_calls w') <= List.length (order_calls w) + 2)%nat /\
    (List.length (trade_log w) <= List.length (trade_log w'))%nat /\
    (List.length (trade_log w') - List.length (trade_log w) <=
       List.length (order_calls w') - List.length (order_calls w))%nat.
Proof.
  intro Hrow. unfold loop_body. run_engine. rewrite Hrow.
  split_ifs; run_engine; (eexists; split; [reflexivity |]);
    cbn [uuid_drawn order_calls trade_log]; rewrite ?length_app;
    cbn [Datatypes.length]; lia.
Qed.

(** A run issues at most two [execute_order] calls per candle and one
    more for the terminal liquidation; it draws one order id per call,
    and writes at most one row per call after the START_BACKTEST row. *)
Theorem run_order_count :
  forall (cfg : Config) (generate_signal : DataFrame -> string)
         (uuid4 : nat -> string) (sym : string) (df : DataFrame),
  exists w,
    run_backtest cfg generate_signal uuid4 sym df = Some w /\
    (List.length (order_calls w) <= 2 * List.length df + 1)%nat /\
    uuid_drawn w = List.length (order_calls w) /\
    (1 <= List.length (trade_log w) <= List.length (order_calls w) + 1)%nat.
Proof.
  intros cfg generate_signal uuid4 sym df.
  apply (backtest_run cfg generate_signal uuid4 sym df
           (fun n w =>
              (List.length (order_calls w) <= 2 * n)%nat /\
              uuid_drawn w = List.length (order_calls w) /\
              (1 <= List.length (trade_log w) <= List.length (order_calls w) + 1)%nat)).
  - simpl. lia.
  - intros i row w Hrow (H1 & H2 & H3).
    destruct (loop_body_counts cfg generate_signal uuid4 sym df i row w Hrow)
      as (w' & E & C1 & C2 & C3 & C4 & C5 & C6).
    exists w'. split; [exact E |]. lia.
  - intros w (H1 & H2 & H3) Hnil.
    destruct (iloc_last_nonempty df) as [Hdf | [row Hrow]].
    + rewrite (Hnil Hdf). exists (started_world cfg sym).
      split; [reflexivity |]. simpl. lia.
    + unfold terminal_liquidation. run_engine. rewrite Hrow.
      split_ifs; run_engine; (eexists; split; [reflexivity |]);
        cbn [uuid_drawn order_calls trade_log]; rewrite ?length_app;
    cbn [Datatypes.length]; lia.
Qed.

(** *** Exposure *)

Lemma bounded_exposure_app (cfg : Config) (calls : list OrderCall) (c : OrderCall) :
  bounded_exposure cfg calls ->
  size (oc_position_after c) = 0 \/
  size (oc_position_after c) = TRADE_QUANTITY cfg ->
  bounded_exposure cfg (calls ++ [c]).
Proof.
  intros H Hc. apply Forall_app. split; [exact H |].
  constructor; [exact Hc | constructor].
Qed.

Ltac exposure_done Hexp :=
  cbn [order_calls];
  repeat (apply bounded_exposure_app;
          [| cbn [oc_position_after current_position size];
             first [ left; reflexivity | right; reflexivity
                   | left; match goal with H : size _ = 0 |- _ => exact H end ]]);
  exact Hexp.

Section Exposure.

Variable cfg : Config.
Variable generate_signal : DataFrame -> string.
Variable uuid4 : nat -> string.
Variable sym : string.
Variable df : DataFrame.
Hypothesis quantity_above_epsilon : epsilon < TRADE_QUANTITY cfg.

Lemma loop_body_exposure (i : nat) (row : Candle) (w : World) :
  iloc df i = Some row ->
  engine_position cfg (current_position (simulated_bybit_client w)) ->
  bounded_exposure cfg (order_calls w) ->
  exists w', loop_body cfg generate_signal uuid4 sym df i w = Some (tt, w') /\
    engine_position cfg (current_position (simulated_bybit_client w')) /\
    bounded_exposure cfg (order_calls w').
Proof.
  intros Hrow Hpos Hexp. unfold loop_body. run_engine. rewrite Hrow.
  set (c := simulated_bybit_client w) in *.
  destruct (String.eqb (generate_signal _) "BUY");
    [| destruct (String.eqb (generate_signal _) "SELL")].
  3: { eexists. split; [reflexivity |]. split; [exact Hpos | exact Hexp]. }
  - destruct Hpos as [[Hs Hz] | [[Hs | Hs] Hz]].
    + rewrite Hs. string_tests. run_engine.
      rewrite (open_on_flat sym c _ "Buy" _ _ _ Hz). run_engine. cbn [success].
      eexists. split; [reflexivity |]. split.
      * right. split; [left; reflexivity | reflexivity].
      * exposure_done Hexp.
    + rewrite Hs. string_tests.
      eexists. split; [reflexivity |]. split; [| exact Hexp].
      right. split; [left; exact Hs | exact Hz].
    + destruct (close_whole_position cfg sym quantity_above_epsilon c
                  (uuid4 (uuid_drawn w)) "Buy" (close row)
                  (Timestamp row) Hz (or_intror (conj Hs eq_refl)))
        as [S1 [Z1 _]].
      rewrite Hs. string_tests. run_engine. rewrite S1.
      rewrite (open_on_flat sym _ _ "Buy" _ _ _ Z1). run_engine. cbn [success].
      eexists. split; [reflexivity |]. split.
      * right. split; [left; reflexivity | reflexivity].
      * exposure_done Hexp.
  - destruct Hpos as [[Hs Hz] | [[Hs | Hs] Hz]].
    + rewrite Hs. string_tests. run_engine.
      rewrite (open_on_flat sym c _ "Sell" _ _ _ Hz). run_engine. cbn [success].
      eexists. split; [reflexivity |]. split.
      * right. split; [right; reflexivity | reflexivity].
      * exposure_done Hexp.
    + destruct (close_whole_position cfg sym quantity_above_epsilon c
                  (uuid4 (uuid_drawn w)) "Sell" (close row)
                  (Timestamp row) Hz (or_introl (conj Hs eq_refl)))
        as [S1 [Z1 _]].
      rewrite Hs. string_tests. run_engine. rewrite S1.
      rewrite (open_on_flat sym _ _ "Sell" _ _ _ Z1). run_engine. cbn [success].
      eexists. split; [reflexivity |]. split.
      * right. split; [right; reflexivity | reflexivity].
      * exposure_done Hexp.
    + rewrite Hs. string_tests.
      eexists. split; [reflexivity |]. split; [| exact Hexp].
      right. split; [right; exact Hs | exact Hz].
Qed.

Lemma terminal_exposure (w : World) :
  (df = [] -> w = started_world cfg sym) ->
  engine_position cfg (current_position (simulated_bybit_client w)) ->
  bounded_exposure cfg (order_calls w) ->
  exists w', terminal_liquidation uuid4 sym df w = Some (tt, w') /\
             bounded_exposure cfg (order_calls w').
Proof.
  intros Hnil Hpos Hexp.
  destruct (iloc_last_nonempty df) as [Hdf | [row Hrow]].
  - rewrite (Hnil Hdf). exists (started_world cfg sym).
    split; [reflexivity | constructor].
  - unfold terminal_liquidation. run_engine. rewrite Hrow.
    set (c := simulated_bybit_client w) in *.
    destruct Hpos as [[Hs Hz] | [[Hs | Hs] Hz]].
    + rewrite Hs. string_tests.
      eexists. split; [reflexivity | exact Hexp].
    + destruct (close_whole_position cfg sym quantity_above_epsilon c
                  (uuid4 (uuid_drawn w)) "Sell" (close row)
                  (Timestamp row) Hz (or_introl (conj Hs eq_refl)))
        as [S1 [Z1 N1]].
      rewrite Hs. string_tests. run_engine.
      eexists. split; [reflexivity |]. exposure_done Hexp.
    + destruct (close_whole_position cfg sym quantity_above_epsilon c
                  (uuid4 (uuid_drawn w)) "Buy" (close row)
                  (Timestamp row) Hz (or_intror (conj Hs eq_refl)))
        as [S1 [Z1 N1]].
      rewrite Hs. string_tests. run_engine.
      eexists. split; [reflexivity |]. exposure_done Hexp.
Qed.

End Exposure.

(** No pyramiding.  With a trade quantity above [epsilon], after every
    [execute_order] call of a run the position size is 0 or exactly the
    configured trade quantity: the engine never adds to a position and
    never closes one in part. *)
Theorem exposure_is_bounded :
  forall (cfg : Config) (generate_signal : DataFrame -> string)
         (uuid4 : nat -> string) (sym : string) (df : DataFrame),
    epsilon < TRADE_QUANTITY cfg ->
    exists w,
      run_backtest cfg generate_signal uuid4 sym df = Some w /\
      Forall (fun c => size (oc_position_after c) = 0 \/
                       size (oc_position_after c) = TRADE_QUANTITY cfg)
        (order_calls w).
Proof.
  intros cfg generate_signal uuid4 sym df Hq.
  apply (backtest_run cfg generate_signal uuid4 sym df
           (fun _ w =>
              engine_position cfg (current_position (simulated_bybit_client w)) /\
              bounded_exposure cfg (order_calls w))).
  - split; [left; split; reflexivity | constructor].
  - intros i row w Hrow [Hpos Hexp].
    exact (loop_body_exposure cfg generate_signal uuid4 sym df Hq i row w
             Hrow Hpos Hexp).
  - intros w [Hpos Hexp] Hnil.
    exact (terminal_exposure cfg uuid4 sym df Hq w Hnil Hpos Hexp).
Qed.

(** The end-to-end scenario, with the repository's quantity 0.1. *)
Lemma exposure_is_bounded_witness :
  exists w,
    run_backtest config stub_strategy uuid_stub "ETHUSDT" four_bars = Some w /\
    Forall (fun c => size (oc_position_after c) = 0 \/
                     size (oc_position_after c) = 1 # 10)
      (order_calls w).
Proof.
  exact (exposure_is_bounded config stub_strategy uuid_stub "ETHUSDT" four_bars
           eq_refl).
Defined.

(** ** The moving-average strategy *)






Lemma sma_generate_signal_wait (df : DataFrame) :
  (List.length df < 8)%nat -> simple_ma_strategy.generate_signal df = "WAIT".
Proof.
  intro H.
  destruct df as [| c0 [| c1 [| c2 [| c3 [| c4 [| c5 [| c6 [| c7 df]]]]]]]];
    try reflexivity.
  simpl in H. lia.
Qed.

















(** ** The single-EMA strategy *)

















(** ** The engine with the moving-average strategy *)

Lemma run_without_signal_on_prefixes
    (cfg : Config) (generate_signal : DataFrame -> string)
    (uuid4 : nat -> string) (sym : string) (df : DataFrame) :
  (forall i, (i < List.length df)%nat ->
     generate_signal (iloc_slice df (i + 1)) <> "BUY" /\
     generate_signal (iloc_slice df (i + 1)) <> "SELL") ->
  exists w,
    run_backtest cfg generate_signal uuid4 sym df = Some w /\
    simulated_bybit_client w =
      init (BACKTEST_INITIAL_CAPITAL cfg) (BACKTEST_COMMISSION_RATE cfg) /\
    trade_log w = [start_record cfg sym] /\
    order_calls w = [].
Proof.
  intro Hquiet.
  apply (backtest_run cfg generate_signal uuid4 sym df
           (fun _ w =>
              simulated_bybit_client w =
                init (BACKTEST_INITIAL_CAPITAL cfg) (BACKTEST_COMMISSION_RATE cfg) /\
              trade_log w = [start_record cfg sym] /\
              order_calls w = [])).
  - repeat split.
  - intros i row w Hrow (Hc & Hl & Ho).
    assert (Hi : (i < List.length df)%nat).
    { apply nth_error_Some. unfold iloc in Hrow. rewrite Hrow. discriminate. }
    destruct (Hquiet i Hi) as [Hb Hs].
    destruct (hold_is_noop cfg generate_signal uuid4 sym df i row w Hrow Hb Hs)
      as (w' & E & Hc' & Hl' & Ho').
    exists w'. split; [exact E |]. repeat split; congruence.
  - intros w (Hc & Hl & Ho) _.
    exists w. split; [| repeat split; assumption].
    unfold terminal_liquidation. run_engine. rewrite Hc. reflexivity.
Qed.

(** Warm-up of a backtest.  With the moving-average strategy plugged
    in, a run over fewer than 8 candles issues no [execute_order] call
    and writes only the START_BACKTEST row; the final balance is the
    initial capital. *)
Theorem sma_backtest_warm_up :
  forall (cfg : Config) (uuid4 : nat -> string) (sym : string) (df : DataFrame),
    (List.length df < 8)%nat ->
    exists w,
      run_backtest cfg simple_ma_strategy.generate_signal uuid4 sym df = Some w /\
      order_calls w = [] /\
      trade_log w = [start_record cfg sym] /\
      current_balance (simulated_bybit_client w) = BACKTEST_INITIAL_CAPITAL cfg.
Proof.
  intros cfg uuid4 sym df Hlen.
  destruct (run_without_signal_on_prefixes cfg simple_ma_strategy.generate_signal
              uuid4 sym df) as (w & E & Hc & Hl & Ho).
  - intros i Hi.
    assert (Hw : simple_ma_strategy.generate_signal (iloc_slice df (i + 1)) = "WAIT").
    { apply sma_generate_signal_wait. unfold iloc_slice.
      rewrite length_firstn. lia. }
    rewrite Hw. split; discriminate.
  - exists w. repeat split; try assumption. rewrite Hc. reflexivity.
Qed.

(** The four bars of the end-to-end scenario are too few to trade. *)
Lemma sma_backtest_warm_up_witness :
  exists w,
    run_backtest config simple_ma_strategy.generate_signal uuid_stub "ETHUSDT"
      four_bars = Some w /\
    order_calls w = [] /\
    current_balance (simulated_bybit_client w) = 10000.
Proof.
  destruct (sma_backtest_warm_up config uuid_stub "ETHUSDT" four_bars)
    as (w & E & Ho & _ & Hb).
  - simpl. lia.
  - exists w. split; [exact E |]. split; [exact Ho | exact Hb].
Defined.

(** The repository's quantity 0.1 is off the boundary. *)
Lemma engine_calls_succeed_off_boundary_witness :
  exists w,
    run_backtest config stub_strategy uuid_stub "ETHUSDT" four_bars = Some w /\
    Forall (fun c => success (oc_result c) = true) (order_calls w).
Proof.
  apply (engine_calls_succeed_off_boundary config stub_strategy uuid_stub
           "ETHUSDT" four_bars).
  intro H. discriminate H.
Defined.

(** ** The trade log *)

Import Ascii.

Lemma rstrip_cons_other (c a : Ascii.ascii) (s : string) :
  Ascii.eqb a c = false ->
  trade_logger.rstrip c (String a s) = String a (trade_logger.rstrip c s).
Proof.
  intro H. cbn [trade_logger.rstrip].
  destruct (trade_logger.rstrip c s); [rewrite H |]; reflexivity.
Qed.

Lemma rstrip_cons_kept (c a : Ascii.ascii) (s : string) :
  trade_logger.rstrip c s <> EmptyString ->
  trade_logger.rstrip c (String a s) = String a (trade_logger.rstrip c s).
Proof.
  intro H. cbn [trade_logger.rstrip].
  destruct (trade_logger.rstrip c s); [contradiction | reflexivity].
Qed.

Lemma rstrip_app_kept (c : Ascii.ascii) (s t : string) :
  trade_logger.rstrip c t <> EmptyString ->
  trade_logger.rstrip c (s ++ t)%string = (s ++ trade_logger.rstrip c t)%string.
Proof.
  intro H. induction s as [| a s IH]; [reflexivity |].
  cbn [String.append trade_logger.rstrip]. rewrite IH.
  destruct (s ++ trade_logger.rstrip c t)%string eqn:E; [| reflexivity].
  destruct s; [simpl in E; contradiction | discriminate E].
Qed.

Lemma rstrip_app_dropped (c : Ascii.ascii) (s t : string) :
  trade_logger.rstrip c t = EmptyString ->
  trade_logger.rstrip c (s ++ t)%string = trade_logger.rstrip c s.
Proof.
  intro H. induction s as [| a s IH]; [exact H |].
  cbn [String.append trade_logger.rstrip]. rewrite IH. reflexivity.
Qed.

(** A string without the character is left as it is. *)
Lemma rstrip_absent (p : Ascii.ascii -> bool) (c : Ascii.ascii) (s : string) :
  p c = false -> string_forall p s = true -> trade_logger.rstrip c s = s.
Proof.
  intros Hc. induction s as [| a s IH]; [reflexivity |].
  cbn [string_forall]. intro H. apply andb_true_iff in H. destruct H as [Ha Hs].
  rewrite rstrip_cons_other, (IH Hs); [reflexivity |].
  apply Ascii.eqb_neq. intros ->. congruence.
Qed.

Lemma rstrip_forall (p : Ascii.ascii -> bool) (c : Ascii.ascii) (s : string) :
  string_forall p s = true -> string_forall p (trade_logger.rstrip c s) = true.
Proof.
  induction s as [| a s IH]; [reflexivity |].
  cbn [string_forall trade_logger.rstrip]. intro H.
  apply andb_true_iff in H. destruct H as [Ha Hs]. specialize (IH Hs).
  destruct (trade_logger.rstrip c s) eqn:E.
  - destruct (Ascii.eqb a c); [reflexivity |]. cbn [string_forall].
    rewrite Ha. reflexivity.
  - cbn [string_forall] in *. rewrite Ha. exact IH.
Qed.

(** The integer part of a logged number is never cut.  For a text
    [ip.frac] made of digits, [rstrip('0').rstrip('.')] gives [ip] when
    the fractional digits are all zeros (["100.00"] gives ["100"], not
    ["1"]), and otherwise [ip.frac] without the trailing zeros of
    [frac]. *)
Theorem strip_number_keeps_integer_part :
  forall ip frac : string,
    string_forall is_digit_or_sign ip = true ->
    string_forall is_digit_or_sign frac = true ->
    trade_logger.strip_number (ip ++ "." ++ frac)%string =
    match trade_logger.rstrip "0"%char frac with
    | EmptyString => ip
    | kept => (ip ++ "." ++ kept)%string
    end.
Proof.
  intros ip frac Hip Hfrac. unfold trade_logger.strip_number.
  assert (Hpoint : trade_logger.rstrip "0"%char ("." ++ frac)%string =
                   ("." ++ trade_logger.rstrip "0"%char frac)%string).
  { cbn [String.append]. apply rstrip_cons_other. reflexivity. }
  rewrite (rstrip_app_kept "0"%char ip ("." ++ frac)%string)
    by (rewrite Hpoint; discriminate).
  rewrite Hpoint.
  pose proof (rstrip_forall is_digit_or_sign "0"%char frac Hfrac) as Hkept.
  destruct (trade_logger.rstrip "0"%char frac) as [| a kept] eqn:E.
  - change ("." ++ "")%string with "."%string.
    rewrite (rstrip_app_dropped "."%char ip ".") by reflexivity.
    apply (rstrip_absent is_digit_or_sign); [reflexivity | exact Hip].
  - assert (Hk : trade_logger.rstrip "."%char (String a kept) = String a kept)
      by (apply (rstrip_absent is_digit_or_sign); [reflexivity | exact Hkept]).
    assert (Hp : trade_logger.rstrip "."%char ("." ++ String a kept)%string =
                 ("." ++ String a kept)%string).
    { cbn [String.append]. rewrite rstrip_cons_kept; rewrite Hk;
        [reflexivity | discriminate]. }
    rewrite (rstrip_app_kept "."%char ip ("." ++ String a kept)%string)
      by (rewrite Hp; discriminate).
    rewrite Hp. reflexivity.
Qed.

(** A balance of 10000 and a PnL of 12.50. *)
Lemma strip_number_keeps_integer_part_witness :
  trade_logger.strip_number "10000.00" = "10000" /\
  trade_logger.strip_number "12.50" = "12.5".
Proof.
  split.
  - exact (strip_number_keeps_integer_part "10000" "00" eq_refl eq_refl).
  - exact (strip_number_keeps_integer_part "12" "50" eq_refl eq_refl).
Defined.

Section Trade_log.

Variable format_8f : Q -> string.
Variable format_2f : Q -> string.
Variable LOG_FOLDER : string.

Local Abbreviation log_trade' :=
  (trade_logger.log_trade format_8f format_2f LOG_FOLDER).
Local Abbreviation row_of' := (trade_logger.row_of format_8f format_2f).

(** Once the session has its file, a call appends its row there. *)
Lemma log_trade_in_session (c : trade_logger.Call) (st : trade_logger.Logger)
    (name : string) (rows : list (list string)) :
  trade_logger.session_log_filename st = Some name ->
  trade_logger.files st name = Some rows ->
  let st' := log_trade' c st in
  trade_logger.session_log_filename st' = Some name /\
  trade_logger.files st' name = Some (rows ++ [row_of' c]) /\
  forall other, other <> name ->
    trade_logger.files st' other = trade_logger.files st other.
Proof.
  intros Hs Hf st'. subst st'. unfold trade_logger.log_trade.
  rewrite Hs. cbn [trade_logger.session_log_filename trade_logger.files].
  rewrite Hs. cbn [trade_logger.session_log_filename trade_logger.files].
  unfold trade_logger.append_file. rewrite String.eqb_refl, Hf.
  split; [reflexivity |]. split; [reflexivity |].
  intros other Hne. apply String.eqb_neq in Hne. rewrite Hne. reflexivity.
Qed.

Lemma log_all_in_session (calls : list trade_logger.Call) :
  forall (st : trade_logger.Logger) (name : string) (rows : list (list string)),
    trade_logger.session_log_filename st = Some name ->
    trade_logger.files st name = Some rows ->
    let st' := trade_logger.log_all format_8f format_2f LOG_FOLDER calls st in
    trade_logger.session_log_filename st' = Some name /\
    trade_logger.files st' name = Some (rows ++ map row_of' calls) /\
    forall other, other <> name ->
      trade_logger.files st' other = trade_logger.files st other.
Proof.
  induction calls as [| c calls IH]; intros st name rows Hs Hf; cbv zeta.
  - simpl. rewrite app_nil_r. repeat split; assumption.
  - destruct (log_trade_in_session c st name rows Hs Hf) as (Hs1 & Hf1 & Ho1).
    destruct (IH _ name _ Hs1 Hf1) as (Hs2 & Hf2 & Ho2).
    unfold trade_logger.log_all in *. cbn [fold_left].
    split; [exact Hs2 |]. split.
    + rewrite Hf2, <- app_assoc. reflexivity.
    + intros other Hne. rewrite (Ho2 other Hne). apply Ho1. exact Hne.
Qed.

End Trade_log.

(** One session, one file.  In a process that starts with no session
    file, the first [log_trade] call names the file after its own symbol,
    mode and clock reading; that file then holds the header followed by
    one row per call, in the order of the calls, whatever the symbol and
    mode of the later calls, and no other file is written. *)
Theorem session_log_file :
  forall (format_8f format_2f : Q -> string) (LOG_FOLDER : string)
         (fs : string -> option (list (list string)))
         (first : trade_logger.Call) (rest : list trade_logger.Call),
    let st := trade_logger.log_all format_8f format_2f LOG_FOLDER (first :: rest)
                (trade_logger.mkLogger None fs) in
    let name := trade_logger.new_session_log_filename LOG_FOLDER first in
    trade_logger.session_log_filename st = Some name /\
    trade_logger.files st name =
      Some (trade_logger.header ::
            map (trade_logger.row_of format_8f format_2f) (first :: rest)) /\
    forall other, other <> name -> trade_logger.files st other = fs other.
Proof.
  intros format_8f format_2f LOG_FOLDER fs first rest st name.
  set (st1 := trade_logger.log_trade format_8f format_2f LOG_FOLDER first
                (trade_logger.mkLogger None fs)).
  assert (Hs1 : trade_logger.session_log_filename st1 = Some name) by reflexivity.
  assert (Hf1 : trade_logger.files st1 name =
                Some ([trade_logger.header] ++
                      [trade_logger.row_of format_8f format_2f first])).
  { subst st1. unfold trade_logger.log_trade.
    cbn [trade_logger.session_log_filename trade_logger.files].
    unfold trade_logger.append_file, trade_logger.write_file.
    fold name. rewrite String.eqb_refl. reflexivity. }
  assert (Ho1 : forall other, other <> name -> trade_logger.files st1 other = fs other).
  { intros other Hne. apply String.eqb_neq in Hne. subst st1.
    unfold trade_logger.log_trade.
    cbn [trade_logger.session_log_filename trade_logger.files].
    unfold trade_logger.append_file, trade_logger.write_file.
    fold name. rewrite Hne. reflexivity. }
  destruct (log_all_in_session format_8f format_2f LOG_FOLDER rest st1 name _ Hs1 Hf1)
    as (Hs & Hf & Ho).
  subst st. unfold trade_logger.log_all in *. cbn [fold_left]. fold st1.
  split; [exact Hs |]. split; [exact Hf |].
  intros other Hne. rewrite (Ho other Hne). apply Ho1. exact Hne.
Qed.
